(** * scripts/load_schema.py: the Directus schema loader

    A shallow embedding of [load_schema] and of the script's [__main__]
    block.  The script talks to three parts of the outside world: the
    process environment, the network (urllib) and the file system.  They
    are represented by a record [World] of answers the libraries give, and
    by a state [Sys] that records what the run did: the lines printed, the
    requests handed to [urlopen], and the state of [reference/schema.json].

    Text comes in two representations.  Console lines, environment values,
    URLs and file contents are [string]s, i.e. byte sequences (the source
    file is UTF-8, so a literal holds the UTF-8 bytes of its text).  The
    [str] values inside a parsed JSON document are lists of code points
    ([pystr]), because [json.loads] can produce code points that have no
    UTF-8 encoding (unpaired surrogates). *)

From Stdlib Require Import ZArith NArith List String Ascii Bool Lia DecimalString.
Import ListNotations.

Local Set Warnings "-register-all".

Local Open Scope string_scope.

(** ** Python [str] values *)

Module PyStr.

Definition pystr := list N.

(** An ASCII literal as a [str]. *)
Definition lit (s : string) : pystr := map N_of_ascii (list_ascii_of_string s).

Definition eqb (a b : pystr) : bool :=
  if list_eq_dec N.eq_dec a b then true else false.

(** [' ' * n] and friends. *)
Fixpoint repeat_str (s : pystr) (n : nat) : pystr :=
  match n with
  | O => []
  | S n' => (s ++ repeat_str s n')%list
  end.

Definition is_surrogate (c : N) : bool := (0xD800 <=? c)%N && (c <=? 0xDFFF)%N.

(** The code points the UTF-8 codec accepts (errors='strict'). *)
Definition encodable (s : pystr) : bool := forallb (fun c => negb (is_surrogate c)) s.

Definition byte (n : N) : string := String (ascii_of_N n) EmptyString.

Definition cont (c : N) (shift : N) : string :=
  byte (N.lor 0x80 (N.land (N.shiftr c shift) 0x3F)).

(** The UTF-8 bytes of one code point. *)
Definition utf8_char (c : N) : string :=
  if (c <? 0x80)%N then byte c
  else if (c <? 0x800)%N then byte (N.lor 0xC0 (N.shiftr c 6)) ++ cont c 0
  else if (c <? 0x10000)%N then
    byte (N.lor 0xE0 (N.shiftr c 12)) ++ cont c 6 ++ cont c 0
  else byte (N.lor 0xF0 (N.shiftr c 18)) ++ cont c 12 ++ cont c 6 ++ cont c 0.

Fixpoint utf8_bytes (s : pystr) : string :=
  match s with
  | [] => EmptyString
  | c :: s' => utf8_char c ++ utf8_bytes s'
  end.

(** Lower-case hexadecimal, as ['{0:04x}'.format] and the [\uXXXX] of
    exception texts print it. *)
Definition hex_digit (d : N) : ascii :=
  if (d <? 10)%N then ascii_of_N (48 + d) else ascii_of_N (87 + d).

Definition hex4 (n : N) : string :=
  String (hex_digit (N.land (N.shiftr n 12) 15))
    (String (hex_digit (N.land (N.shiftr n 8) 15))
       (String (hex_digit (N.land (N.shiftr n 4) 15))
          (String (hex_digit (N.land n 15)) EmptyString))).

(** [str(n)] of an [int]. *)
Definition str_of_int (z : Z) : string := NilZero.string_of_int (Z.to_int z).

(** ['=' * n] on byte strings. *)
Fixpoint repeat_string (s : string) (n : nat) : string :=
  match n with
  | O => EmptyString
  | S n' => s ++ repeat_string s n'
  end.

Definition nl : string := String (ascii_of_nat 10) EmptyString.
Definition dq : string := String (ascii_of_nat 34) EmptyString.

End PyStr.
Import PyStr.

(** ** Exceptions

    The three classes the handlers of [load_schema] tell apart.
    [HTTPError] is a subclass of [URLError] and is listed first in the
    source, so it is a class of its own here.  [OtherError] is every other
    subclass of [Exception], with [type(e).__name__] and [str(e)]. *)

Inductive Exn : Type :=
| HTTPError (code : Z) (reason : string)
| URLError (reason : string)
| OtherError (type_name : string) (message : string).

(** ** JSON documents as [json.loads] returns them *)

Module Json.

(** A [float] is carried by the text the encoder prints for it
    ([float.__repr__], or [NaN], [Infinity], [-Infinity]).  The keys of a
    [dict] are kept in insertion order; [json.loads] makes them distinct. *)
Inductive json : Type :=
| JNull
| JBool (b : bool)
| JInt (n : Z)
| JFloat (text : string)
| JStr (s : pystr)
| JList (l : list json)
| JDict (d : list (pystr * json)).

(** [type(o).__name__] *)
Definition type_name (o : json) : string :=
  match o with
  | JNull => "NoneType"
  | JBool _ => "bool"
  | JInt _ => "int"
  | JFloat _ => "float"
  | JStr _ => "str"
  | JList _ => "list"
  | JDict _ => "dict"
  end.

(** [bool(o)], the test behind [not o]. *)
Definition truthy (o : json) : bool :=
  match o with
  | JNull => false
  | JBool b => b
  | JInt n => negb (n =? 0)%Z
  | JFloat t => negb (String.eqb t "0.0" || String.eqb t "-0.0")
  | JStr s => negb (Nat.eqb (List.length s) 0)
  | JList l => negb (Nat.eqb (List.length l) 0)
  | JDict d => negb (Nat.eqb (List.length d) 0)
  end.

(** [len(o)] *)
Definition py_len (o : json) : Exn + nat :=
  match o with
  | JStr s => inr (List.length s)
  | JList l => inr (List.length l)
  | JDict d => inr (List.length d)
  | _ => inl (OtherError "TypeError"
                ("object of type '" ++ type_name o ++ "' has no len()"))
  end.

Fixpoint dict_lookup (key : pystr) (d : list (pystr * json)) : option json :=
  match d with
  | [] => None
  | (k, v) :: d' => if PyStr.eqb k key then Some v else dict_lookup key d'
  end.

(** [o.get(key, default)]: a method of [dict] only. *)
Definition py_get (o : json) (key : pystr) (default : json) : Exn + json :=
  match o with
  | JDict d =>
      inr (match dict_lookup key d with Some v => v | None => default end)
  | _ => inl (OtherError "AttributeError"
                ("'" ++ type_name o ++ "' object has no attribute 'get'"))
  end.

(** *** The encoder of [json.dump]

    [json.dump(obj, fp, indent=..., ensure_ascii=...)] writes the chunks
    of [JSONEncoder.iterencode] one by one. *)

Definition escape_short (c : N) : option pystr :=
  if (c =? 92)%N then Some (lit "\\")
  else if (c =? 34)%N then Some [92; 34]%N
  else if (c =? 8)%N then Some (lit "\b")
  else if (c =? 12)%N then Some (lit "\f")
  else if (c =? 10)%N then Some (lit "\n")
  else if (c =? 13)%N then Some (lit "\r")
  else if (c =? 9)%N then Some (lit "\t")
  else if (c <? 0x20)%N then Some (lit ("\u" ++ hex4 c))
  else None.

(** [encode_basestring]: only the quote, the backslash and the control
    characters below 0x20 are escaped. *)
Definition escape_char (c : N) : pystr :=
  match escape_short c with
  | Some e => e
  | None => [c]
  end.

(** [encode_basestring_ascii]: everything outside [' '..'~'] is escaped
    too, code points above 0xFFFF as a surrogate pair. *)
Definition escape_char_ascii (c : N) : pystr :=
  match escape_short c with
  | Some e => e
  | None =>
      if (0x20 <=? c)%N && (c <=? 0x7E)%N then [c]
      else if (c <? 0x10000)%N then lit ("\u" ++ hex4 c)
      else
        let n := (c - 0x10000)%N in
        let s1 := N.lor 0xD800 (N.land (N.shiftr n 10) 0x3FF) in
        let s2 := N.lor 0xDC00 (N.land n 0x3FF) in
        lit ("\u" ++ hex4 s1 ++ "\u" ++ hex4 s2)
  end.

Definition encoder (ensure_ascii : bool) (s : pystr) : pystr :=
  ([34%N] ++ flat_map (if ensure_ascii then escape_char_ascii else escape_char) s
     ++ [34%N])%list.

(** The one-chunk values: [str], [None], [True], [False], [int], [float]. *)
Definition scalar_text (ensure_ascii : bool) (o : json) : option pystr :=
  match o with
  | JStr s => Some (encoder ensure_ascii s)
  | JNull => Some (lit "null")
  | JBool true => Some (lit "true")
  | JBool false => Some (lit "false")
  | JInt n => Some (lit (str_of_int n))
  | JFloat t => Some (lit t)
  | JList _ | JDict _ => None
  end.

Section Iterencode.

(** [_indent = ' ' * indent], [_encoder], and the separators that
    [JSONEncoder.__init__] picks when an indent is given. *)
Variable indent : nat.
Variable ensure_ascii : bool.

Definition item_separator : pystr := lit ",".
Definition key_separator : pystr := lit ": ".

Definition newline_indent (level : nat) : pystr :=
  ([10%N] ++ repeat_str (repeat_str (lit " ") indent) level)%list.

(** [_iterencode], with [_iterencode_list] and [_iterencode_dict] as
    the two inner loops. *)
Fixpoint iterencode (o : json) (level : nat) {struct o} : list pystr :=
  match o with
  | JList lst =>
      match lst with
      | [] => [lit "[]"]
      | _ =>
          let separator := (item_separator ++ newline_indent (S level))%list in
          ((fix items (first : bool) (l : list json) : list pystr :=
              match l with
              | [] => []
              | value :: l' =>
                  let buf :=
                    if first then (lit "[" ++ newline_indent (S level))%list
                    else separator in
                  (match scalar_text ensure_ascii value with
                   | Some t => [(buf ++ t)%list]
                   | None => buf :: iterencode value (S level)
                   end ++ items false l')%list
              end) true lst
           ++ [newline_indent level; lit "]"])%list
      end
  | JDict dct =>
      match dct with
      | [] => [lit "{}"]
      | _ =>
          let separator := (item_separator ++ newline_indent (S level))%list in
          ([lit "{"; newline_indent (S level)]
           ++ (fix items (first : bool) (l : list (pystr * json)) : list pystr :=
                 match l with
                 | [] => []
                 | (key, value) :: l' =>
                     ((if first then [] else [separator])
                      ++ [encoder ensure_ascii key; key_separator]
                      ++ match scalar_text ensure_ascii value with
                         | Some t => [t]
                         | None => iterencode value (S level)
                         end
                      ++ items false l')%list
                 end) true dct
           ++ [newline_indent level; lit "}"])%list
      end
  | _ =>
      match scalar_text ensure_ascii o with
      | Some t => [t]
      | None => []
      end
  end.

End Iterencode.

(** [json.dumps(o, indent=..., ensure_ascii=...)] *)
Definition dumps (indent : nat) (ensure_ascii : bool) (o : json) : pystr :=
  List.concat (iterencode indent ensure_ascii o 0).

End Json.
Import Json.

(** ** The outside world and the state of a run *)

(** A [urllib.request.Request]: the address and the headers added to it. *)
Record Request : Type := mkRequest {
  full_url : string;
  headers : list (string * string)
}.

(** What the script reads of a response: [response.status], and the value
    of [json.loads(response.read().decode("utf-8"))] or the exception that
    [read], [decode] or [loads] raises. *)
Record Response : Type := mkResponse {
  status : Z;
  body : Exn + json
}.

(** The answers of the libraries.  [Request_init url] is the exception
    [Request(url)] raises, if any (a [ValueError] for an address without a
    scheme); [urlopen request timeout] is the response or the exception
    raised; [mkdir_fault] and [open_fault] are the errors of the operating
    system on [reference_dir.mkdir(exist_ok=True)] and on
    [open(schema_file, "w", encoding="utf-8")]; [schema_file_name] is
    [str(schema_file)].  Console output is taken to succeed. *)
Record World : Type := mkWorld {
  environ : string -> option string;
  Request_init : string -> option Exn;
  urlopen : Request -> Z -> Exn + Response;
  mkdir_fault : option Exn;
  open_fault : option Exn;
  schema_file_name : string
}.

(** The two paths the script touches: the directory [reference] and the
    file [reference/schema.json] with its bytes. *)
Record Files : Type := mkFiles {
  reference_dir : bool;
  schema_json : option string
}.

Record Sys : Type := mkSys {
  stdout : list string;
  net_log : list (Request * Z);
  files : Files
}.

(** A process starts with nothing printed and nothing sent. *)
Definition boot (fs : Files) : Sys := mkSys [] [] fs.

(** ** A state and exception monad for the statements of the script *)

Definition M (A : Type) : Type := Sys -> (Exn + A) * Sys.

Definition ret {A : Type} (a : A) : M A := fun s => (inr a, s).

Definition raise {A : Type} (e : Exn) : M A := fun s => (inl e, s).

Definition bind {A B : Type} (m : M A) (k : A -> M B) : M B :=
  fun s =>
    match m s with
    | (inl e, s') => (inl e, s')
    | (inr a, s') => k a s'
    end.

(** [try: body except ...: handler] *)
Definition try_except {A : Type} (body : M A) (handler : Exn -> M A) : M A :=
  fun s =>
    match body s with
    | (inl e, s') => handler e s'
    | (inr a, s') => (inr a, s')
    end.

Definition lift {A : Type} (r : Exn + A) : M A := fun s => (r, s).

Declare Scope py_scope.
Delimit Scope py_scope with py.
Notation "x <- m ;; k" := (bind m (fun x => k))
  (at level 100, m at next level, right associativity) : py_scope.
Notation "m ;; k" := (bind m (fun _ => k))
  (at level 100, right associativity) : py_scope.
Local Open Scope py_scope.

Definition print (line : string) : M unit :=
  fun s => (inr tt, mkSys (stdout s ++ [line]) (net_log s) (files s)).

Fixpoint print_all (lines : list string) : M unit :=
  match lines with
  | [] => ret tt
  | l :: ls => print l ;; print_all ls
  end.

(** [os.getenv(name)] and [os.getenv(name, default)] *)
Definition getenv (w : World) (name : string) : option string := environ w name.

Definition getenv_default (w : World) (name default : string) : string :=
  match environ w name with
  | Some v => v
  | None => default
  end.

(** [bool(v)] for a value that is [None] or a [str]. *)
Definition str_truthy (v : option string) : bool :=
  match v with
  | None => false
  | Some s => negb (String.eqb s "")
  end.

(** A value that is [None] or a [str] inside an f-string. *)
Definition fmt (v : option string) : string :=
  match v with
  | None => "None"
  | Some s => s
  end.

(** [Request(url)] *)
Definition Request_ (w : World) (url : string) : M Request :=
  match Request_init w url with
  | Some e => raise e
  | None => ret (mkRequest url [])
  end.

(** [request.add_header(key, val)]; both keys of the script are already in
    the capitalised form the method stores. *)
Definition add_header (r : Request) (key val : string) : Request :=
  mkRequest (full_url r) (headers r ++ [(key, val)]).

(** [urlopen(request, timeout=...)]: the call is recorded, then answered. *)
Definition urlopen_ (w : World) (r : Request) (timeout : Z) : M Response :=
  fun s => (urlopen w r timeout, mkSys (stdout s) (net_log s ++ [(r, timeout)]) (files s)).

(** [reference_dir.mkdir(exist_ok=True)] *)
Definition mkdir (w : World) : M unit :=
  fun s =>
    match mkdir_fault w with
    | Some e => (inl e, s)
    | None => (inr tt, mkSys (stdout s) (net_log s) (mkFiles true (schema_json (files s))))
    end.

(** [open(schema_file, "w", encoding="utf-8")]: creates or truncates. *)
Definition open_w (w : World) : M unit :=
  fun s =>
    match open_fault w with
    | Some e => (inl e, s)
    | None =>
        (inr tt, mkSys (stdout s) (net_log s) (mkFiles (reference_dir (files s)) (Some "")))
    end.

(** The first run of code points the codec refuses: its position and
    length. *)
Fixpoint surrogate_run (s : pystr) : nat :=
  match s with
  | c :: s' => if is_surrogate c then S (surrogate_run s') else O
  | [] => O
  end.

Fixpoint first_refused (s : pystr) (pos : nat) : option (nat * N * nat) :=
  match s with
  | [] => None
  | c :: s' =>
      if is_surrogate c then Some (pos, c, S (surrogate_run s'))
      else first_refused s' (S pos)
  end.

Definition str_of_nat (n : nat) : string := str_of_int (Z.of_nat n).

Definition UnicodeEncodeError (chunk : pystr) : Exn :=
  OtherError "UnicodeEncodeError"
    (match first_refused chunk 0 with
     | Some (pos, c, 1%nat) =>
         "'utf-8' codec can't encode character '\u" ++ hex4 c ++ "' in position "
           ++ str_of_nat pos ++ ": surrogates not allowed"
     | Some (pos, _, len) =>
         "'utf-8' codec can't encode characters in position " ++ str_of_nat pos
           ++ "-" ++ str_of_nat (pos + len - 1) ++ ": surrogates not allowed"
     | None => ""
     end).

(** [f.write(chunk)] on the text file: the chunk is encoded as a whole. *)
Definition f_write (chunk : pystr) : M unit :=
  fun s =>
    if encodable chunk then
      let old := match schema_json (files s) with Some c => c | None => "" end in
      (inr tt, mkSys (stdout s) (net_log s)
                 (mkFiles (reference_dir (files s)) (Some (old ++ utf8_bytes chunk))))
    else (inl (UnicodeEncodeError chunk), s).

Fixpoint write_chunks (chunks : list pystr) : M unit :=
  match chunks with
  | [] => ret tt
  | c :: cs => f_write c ;; write_chunks cs
  end.

(** [json.dump(obj, f, indent=..., ensure_ascii=...)] *)
Definition json_dump (obj : json) (indent : nat) (ensure_ascii : bool) : M unit :=
  write_chunks (iterencode indent ensure_ascii obj 0).

(** ** The script *)

(** ["=" * 60] *)
Definition rule : string := repeat_string "=" 60.

Definition missing_token_lines : list string :=
  [ "❌ ERROR: DIRECTUS_TOKEN environment variable is not set";
    nl ++ "📋 TODO - Directus Configuration Required:";
    rule;
    "1. Create a static API token in your Directus instance:";
    "   - Go to: https://directus.bounteer.com/admin/settings/access-tokens";
    "   - Click 'Create Token'";
    "   - Name: 'Schema Export' (or similar)";
    "   - Set appropriate permissions:";
    "     • Read access to system collections";
    "     • Schema read permissions";
    "   - Copy the generated token";
    "";
    "2. Set the token as an environment variable:";
    "   export DIRECTUS_TOKEN='your-token-here'";
    "";
    "3. Re-run this script:";
    "   python scripts/load_schema.py";
    rule ].

Definition authentication_lines : list string :=
  [ nl ++ "📋 TODO - Authentication Error:";
    rule;
    "Your DIRECTUS_TOKEN appears to be invalid or expired.";
    "Please check the following:";
    "1. Token is correctly copied (no extra spaces)";
    "2. Token has not expired";
    "3. Token has appropriate permissions:";
    "   - System collections read access";
    "   - Schema read permissions";
    "";
    "Generate a new token at:";
    "https://directus.bounteer.com/admin/settings/access-tokens";
    rule ].

Definition permission_lines : list string :=
  [ nl ++ "📋 TODO - Permission Error:";
    rule;
    "Your token does not have sufficient permissions.";
    "Please update the token permissions to include:";
    "- System collections: Read access";
    "- Schema endpoint: Read access";
    rule ].

Definition connection_lines : list string :=
  [ nl ++ "📋 TODO - Connection Issue:";
    rule;
    "Unable to connect to Directus instance.";
    "Please check:";
    "1. Directus URL is correct: https://directus.bounteer.com";
    "2. Directus instance is running and accessible";
    "3. Your network connection is working";
    "4. No firewall is blocking the connection";
    rule ].

Definition no_schemas_line : string :=
  "❌ ERROR: No schemas found in the OpenAPI specification".

Definition status_line (code : Z) : string :=
  "❌ ERROR: Received status code " ++ str_of_int code.

Definition http_error_line (code : Z) (reason : string) : string :=
  "❌ HTTP Error: " ++ str_of_int code ++ " - " ++ reason.

Definition connection_error_line (reason : string) : string :=
  "❌ Connection Error: " ++ reason.

Definition unexpected_error_line (type_name message : string) : string :=
  "❌ Unexpected Error: " ++ type_name ++ ": " ++ message.

Definition fetching_line (schema_url : string) : string :=
  "🔍 Fetching schema from: " ++ schema_url.

Definition saved_line (schema_file : string) : string :=
  "✅ Schema successfully saved to: " ++ schema_file.

Definition count_line (n : nat) : string :=
  "📊 Schema contains " ++ str_of_nat n ++ " schemas".

(** Line 28: [os.getenv("DIRECTUS_URL", "https://directus.bounteer.com")] *)
Definition directus_url (w : World) : string :=
  getenv_default w "DIRECTUS_URL" "https://directus.bounteer.com".

(** Line 29: [os.getenv("DIRECTUS_TOKEN")] *)
Definition directus_token (w : World) : option string :=
  getenv w "DIRECTUS_TOKEN".

(** Line 53: [f"{directus_url}/server/specs/oas"] *)
Definition schema_url (w : World) : string :=
  directus_url w ++ "/server/specs/oas".

(** Line 71: [full_spec.get("components", {}).get("schemas", {})] *)
Definition extract_schemas (full_spec : json) : Exn + json :=
  match py_get full_spec (lit "components") (JDict []) with
  | inl e => inl e
  | inr components => py_get components (lit "schemas") (JDict [])
  end.

(** Lines 57-89: the body of the [try]. *)
Definition try_body (w : World) : M bool :=
  request <- Request_ w (schema_url w) ;;
  let request := add_header request "Authorization" ("Bearer " ++ fmt (directus_token w)) in
  let request := add_header request "Accept" "application/json" in
  response <- urlopen_ w request 30 ;;
  if negb (status response =? 200)%Z then
    print (status_line (status response)) ;;
    ret false
  else
    full_spec <- lift (body response) ;;
    schema_data <- lift (extract_schemas full_spec) ;;
    if negb (truthy schema_data) then
      print no_schemas_line ;;
      ret false
    else
      mkdir w ;;
      open_w w ;;
      json_dump schema_data 2 false ;;
      print (saved_line (schema_file_name w)) ;;
      n <- lift (py_len schema_data) ;;
      print (count_line n) ;;
      ret true.

(** Lines 91-132: the three [except] clauses, in the order of the source. *)
Definition handler (e : Exn) : M bool :=
  match e with
  | HTTPError code reason =>
      print (http_error_line code reason) ;;
      (if (code =? 401)%Z then print_all authentication_lines
       else if (code =? 403)%Z then print_all permission_lines
       else ret tt) ;;
      ret false
  | URLError reason =>
      print (connection_error_line reason) ;;
      print_all connection_lines ;;
      ret false
  | OtherError type_name message =>
      print (unexpected_error_line type_name message) ;;
      ret false
  end.

(** Lines 24-132. *)
Definition load_schema (w : World) : M bool :=
  if negb (str_truthy (directus_token w)) then
    print_all missing_token_lines ;;
    ret false
  else
    print (fetching_line (schema_url w)) ;;
    try_except (try_body w) handler.

(** Lines 135-146: the banner, the call, and [sys.exit(0 if success else 1)];
    the value returned is the argument of [sys.exit]. *)
Definition main (w : World) : M Z :=
  print rule ;;
  print "🚀 Directus Schema Loader" ;;
  print rule ;;
  print "" ;;
  success <- load_schema w ;;
  print "" ;;
  print rule ;;
  ret (if success then 0 else 1)%Z.

(** A run of the script as a process: the exit status and the final state.
    An exception that leaves [main] ends the interpreter with status 1. *)
Record Outcome : Type := mkOutcome {
  exit_status : Z;
  escaped : option Exn;
  final : Sys
}.

Definition run (w : World) (fs : Files) : Outcome :=
  match main w (boot fs) with
  | (inr code, s) => mkOutcome code None s
  | (inl e, s) => mkOutcome 1 (Some e) s
  end.

(** ** Concrete worlds, for evaluating the script *)

Definition env_of (url token : option string) : string -> option string :=
  fun name =>
    if String.eqb name "DIRECTUS_URL" then url
    else if String.eqb name "DIRECTUS_TOKEN" then token
    else None.

(** The check [Request(url)] makes on the address (urllib's [_splittype]):
    it must start with a scheme, one or more characters other than ['/'] and
    [':'], followed by [':'].  The text of the error is that of an address
    without quotes or escapes. *)
Fixpoint scheme_scan (seen : bool) (url : string) : bool :=
  match url with
  | EmptyString => false
  | String c rest =>
      if Ascii.eqb c ":" then seen
      else if Ascii.eqb c "/" then false
      else scheme_scan true rest
  end.

Definition request_check (url : string) : option Exn :=
  if scheme_scan false url then None
  else Some (OtherError "ValueError" ("unknown url type: '" ++ url ++ "'")).

(** How urllib's [do_open] reports a failure of the transport: an [OSError]
    raised while the request is sent, connecting and the TLS handshake
    included, is wrapped in [URLError]; what is raised while the response is
    awaited is let through as it is. *)
Inductive Phase : Type := Sending | Receiving.

Record TransportFailure : Type := mkTransportFailure {
  phase : Phase;
  error_class : string;
  error_text : string
}.

Definition do_open_error (f : TransportFailure) : Exn :=
  match phase f with
  | Sending => URLError (error_text f)
  | Receiving => OtherError (error_class f) (error_text f)
  end.

Definition connection_refused : TransportFailure :=
  mkTransportFailure Sending "ConnectionRefusedError" "[Errno 111] Connection refused".

Definition name_not_resolved : TransportFailure :=
  mkTransportFailure Sending "gaierror" "[Errno -2] Name or service not known".

Definition connect_timeout : TransportFailure :=
  mkTransportFailure Sending "TimeoutError" "timed out".

Definition response_timeout : TransportFailure :=
  mkTransportFailure Receiving "TimeoutError" "The read operation timed out".

(** A world whose network gives one answer and whose file system works. *)
Definition world_of (url token : option string) (answer : Exn + Response) : World :=
  mkWorld (env_of url token) request_check (fun _ _ => answer) None None
    "/repo/reference/schema.json".

Definition old_files : Files := mkFiles true (Some "old").
Definition no_files : Files := mkFiles false None.

Definition components_with (schemas : json) : json :=
  JDict [(lit "components", JDict [(lit "schemas", schemas)])].

(** [{"A": {"type": "object"}}] *)
Definition schemas_A : json :=
  JDict [(lit "A", JDict [(lit "type", JStr (lit "object"))])].

(** [{"A": {"title": "\ud800"}}]: the escape is valid JSON text and
    [json.loads] turns it into the code point U+D800. *)
Definition schemas_surrogate : json :=
  JDict [(lit "A", JDict [(lit "title", JStr [0xD800%N])])].

Definition ok_200 (doc : json) : Exn + Response := inr (mkResponse 200 (inr doc)).

(** ** Vocabulary for stating the properties *)

Definition banner_lines : list string :=
  [rule; "🚀 Directus Schema Loader"; rule; ""].

Definition closing_lines : list string := [""; rule].

(** Everything a run prints: the banner, the lines of [load_schema], the
    closing rule. *)
Definition console (lines : list string) : list string :=
  (banner_lines ++ lines ++ closing_lines)%list.

(** The request [load_schema] builds (lines 58-60). *)
Definition request_of (w : World) : Request :=
  add_header
    (add_header (mkRequest (schema_url w) [])
       "Authorization" ("Bearer " ++ fmt (directus_token w)))
    "Accept" "application/json".

(** No string of the document holds a code point the UTF-8 codec refuses. *)
Fixpoint no_surrogates (o : json) : bool :=
  match o with
  | JStr s => encodable s
  | JList l => forallb no_surrogates l
  | JDict d =>
      forallb (fun kv : pystr * json => let (k, v) := kv in encodable k && no_surrogates v) d
  | _ => true
  end.

(** The run reaches [open(schema_file, "w")] and the call succeeds. *)
Definition opens_file (w : World) : Prop :=
  str_truthy (directus_token w) = true /\
  Request_init w (schema_url w) = None /\
  exists resp doc schemas,
    urlopen w (request_of w) 30 = inr resp /\
    status resp = 200%Z /\
    body resp = inr doc /\
    extract_schemas doc = inr schemas /\
    truthy schemas = true /\
    mkdir_fault w = None /\
    open_fault w = None.

(** Every step of the pipeline succeeds: configuration, request, status,
    parsing, extraction, directory, file, encoding, count. *)
Definition full_success (w : World) : Prop :=
  str_truthy (directus_token w) = true /\
  Request_init w (schema_url w) = None /\
  exists resp doc schemas n,
    urlopen w (request_of w) 30 = inr resp /\
    status resp = 200%Z /\
    body resp = inr doc /\
    extract_schemas doc = inr schemas /\
    truthy schemas = true /\
    mkdir_fault w = None /\
    open_fault w = None /\
    forallb encodable (iterencode 2 false schemas 0) = true /\
    py_len schemas = inr n.

(** In the words of the specification: the key ["components"], or the key
    ["schemas"] inside it, is missing from a parsed document. *)
Definition has_key (o : json) (key : pystr) : bool :=
  match o with
  | JDict d => match dict_lookup key d with Some _ => true | None => false end
  | _ => false
  end.

Definition key_missing (doc : json) : bool :=
  if has_key doc (lit "components") then
    match doc with
    | JDict d =>
        match dict_lookup (lit "components") d with
        | Some components => negb (has_key components (lit "schemas"))
        | None => true
        end
    | _ => true
    end
  else true.

(** State transformers that name what a step leaves behind. *)
Definition say (lines : list string) (s : Sys) : Sys :=
  mkSys (stdout s ++ lines) (net_log s) (files s).

Definition sent (w : World) (s : Sys) : Sys :=
  mkSys (stdout s) (net_log s ++ [(request_of w, 30%Z)]) (files s).

Definition with_files (f : Files) (s : Sys) : Sys :=
  mkSys (stdout s) (net_log s) f.

(** Lines 77-89, the statements that follow the emptiness test. *)
Definition save_steps (w : World) (schema_data : json) : M bool :=
  mkdir w ;;
  open_w w ;;
  json_dump schema_data 2 false ;;
  print (saved_line (schema_file_name w)) ;;
  n <- lift (py_len schema_data) ;;
  print (count_line n) ;;
  ret true.

(** The chunks written before the first one the codec refuses, and that
    chunk. *)
Fixpoint written_chunks (chunks : list pystr) : list pystr :=
  match chunks with
  | [] => []
  | c :: cs => if encodable c then c :: written_chunks cs else []
  end.

Fixpoint refused_chunk (chunks : list pystr) : option pystr :=
  match chunks with
  | [] => None
  | c :: cs => if encodable c then refused_chunk cs else Some c
  end.

(** The file after [open_w] and the writes of [json_dump]. *)
Definition dumped_files (schema_data : json) : Files :=
  mkFiles true
    (Some (utf8_bytes (List.concat (written_chunks (iterencode 2 false schema_data 0))))).

(** The two loops of [iterencode] under their names in the library. *)
Definition iterencode_list_items (indent : nat) (ensure_ascii : bool) (level : nat) :
  bool -> list json -> list pystr :=
  fix items (first : bool) (l : list json) : list pystr :=
    match l with
    | [] => []
    | value :: l' =>
        let buf :=
          if first then (lit "[" ++ newline_indent indent (S level))%list
          else (item_separator ++ newline_indent indent (S level))%list in
        (match scalar_text ensure_ascii value with
         | Some t => [(buf ++ t)%list]
         | None => buf :: iterencode indent ensure_ascii value (S level)
         end ++ items false l')%list
    end.

Definition iterencode_dict_items (indent : nat) (ensure_ascii : bool) (level : nat) :
  bool -> list (pystr * json) -> list pystr :=
  fix items (first : bool) (l : list (pystr * json)) : list pystr :=
    match l with
    | [] => []
    | (key, value) :: l' =>
        ((if first then [] else [(item_separator ++ newline_indent indent (S level))%list])
         ++ [encoder ensure_ascii key; key_separator]
         ++ match scalar_text ensure_ascii value with
            | Some t => [t]
            | None => iterencode indent ensure_ascii value (S level)
            end
         ++ items false l')%list
    end.

(** What follows the "HTTP Error" line, by status code. *)
Definition http_guidance (code : Z) : list string :=
  if (code =? 401)%Z then authentication_lines
  else if (code =? 403)%Z then permission_lines
  else [].

(** Worlds for the examples below. *)
Definition world_A : World :=
  world_of None (Some "tok") (ok_200 (components_with schemas_A)).

Definition world_surrogate : World :=
  world_of None (Some "tok") (ok_200 (components_with schemas_surrogate)).

(** [{"Pet": {"description": "\udc00"}, "Tag": {}}] *)
Definition schemas_partial : json :=
  JDict [(lit "Pet", JDict [(lit "description", JStr [0xDC00%N])]); (lit "Tag", JDict [])].

Definition world_partial : World :=
  world_of None (Some "tok") (ok_200 (components_with schemas_partial)).

(** [{"components": null}] *)
Definition doc_null_components : json := JDict [(lit "components", JNull)].

Definition world_null_components : World :=
  world_of None (Some "tok") (ok_200 doc_null_components).

Definition world_empty : World :=
  world_of None (Some "tok") (ok_200 (components_with (JDict []))).

Definition world_401 : World :=
  world_of None (Some "tok") (inl (HTTPError 401 "Unauthorized")).

Definition world_204 : World :=
  world_of None (Some "tok") (inr (mkResponse 204 (inr (components_with schemas_A)))).

Definition world_refused : World :=
  world_of None (Some "tok") (inl (do_open_error connection_refused)).

Definition world_response_timeout : World :=
  world_of None (Some "tok") (inl (do_open_error response_timeout)).

Definition world_empty_url : World :=
  world_of (Some "") (Some "tok") (ok_200 (components_with schemas_A)).

Definition world_no_token : World :=
  world_of None (Some "") (ok_200 (components_with schemas_A)).

(** The lines each [except] clause prints. *)
Definition handler_lines (e : Exn) : list string :=
  match e with
  | HTTPError code reason => http_error_line code reason :: http_guidance code
  | URLError reason => connection_error_line reason :: connection_lines
  | OtherError type_name message => [unexpected_error_line type_name message]
  end.

(** More worlds: a body that is not JSON, an array and a number at
    components.schemas, and a file system that refuses the directory or the
    file. *)
Definition world_bad_json : World :=
  world_of None (Some "tok")
    (inr (mkResponse 200
            (inl (OtherError "JSONDecodeError" "Expecting value: line 1 column 1 (char 0)")))).

Definition world_array : World :=
  world_of None (Some "tok") (ok_200 (components_with (JList [JStr (lit "A"); JInt 1]))).

Definition world_number : World :=
  world_of None (Some "tok") (ok_200 (components_with (JInt 5))).

Definition permission_denied (path : string) : Exn :=
  OtherError "PermissionError" ("[Errno 13] Permission denied: '" ++ path ++ "'").

Definition world_mkdir_denied : World :=
  mkWorld (env_of None (Some "tok")) request_check
    (fun _ _ => ok_200 (components_with schemas_A))
    (Some (permission_denied "/repo/reference")) None "/repo/reference/schema.json".

Definition world_open_denied : World :=
  mkWorld (env_of None (Some "tok")) request_check
    (fun _ _ => ok_200 (components_with schemas_A))
    None (Some (permission_denied "/repo/reference/schema.json"))
    "/repo/reference/schema.json".

(** A character [encode_basestring] leaves as it is. *)
Definition plain_char (c : N) : bool :=
  (0x20 <=? c)%N && negb (c =? 34)%N && negb (c =? 92)%N.


(** * Properties *)

Module PyStrFacts.

Lemma eqb_eq a b : eqb a b = true <-> a = b.
Proof. unfold eqb. destruct (list_eq_dec N.eq_dec a b); split; congruence. Qed.

Lemma eqb_refl a : eqb a a = true.
Proof. now apply eqb_eq. Qed.

Lemma string_app_assoc (a b c : string) : (a ++ b) ++ c = a ++ (b ++ c).
Proof. induction a as [|x a IH]; simpl; [reflexivity | now rewrite IH]. Qed.

Lemma utf8_bytes_app (a b : pystr) :
utf8_bytes (a ++ b)%list = utf8_bytes a ++ utf8_bytes b.
Proof.
induction a as [|c a IH]; simpl; [reflexivity|].
now rewrite IH, string_app_assoc.
Qed.

Lemma encodable_app (a b : pystr) :
encodable (a ++ b)%list = encodable a && encodable b.
Proof. apply forallb_app. Qed.

Lemma encodable_lit (s : string) : encodable (lit s) = true.
Proof.
unfold encodable, lit. apply forallb_forall. intros c Hc.
apply in_map_iff in Hc. destruct Hc as [a [<- _]].
unfold is_surrogate.
assert (N_of_ascii a < 256)%N by apply N_ascii_bounded.
destruct (0xD800 <=? N_of_ascii a)%N eqn:E; [|reflexivity].
apply N.leb_le in E. lia.
Qed.

Lemma encodable_repeat (s : pystr) (n : nat) :
encodable s = true -> encodable (repeat_str s n) = true.
Proof.
intros Hs. induction n as [|n IH]; simpl; [reflexivity|].
now rewrite encodable_app, Hs, IH.
Qed.

End PyStrFacts.
Import PyStrFacts.

Example utf8_e_acute : utf8_bytes [0xE9%N] = "é".
Proof. reflexivity. Qed.

Example utf8_euro : utf8_bytes [0x20AC%N] = "€".
Proof. reflexivity. Qed.

Example utf8_rocket : utf8_bytes [0x1F680%N] = "🚀".
Proof. reflexivity. Qed.

(** The serialisation of the specification's example, 2-space indented. *)
Example dumps_schemas_A :
  utf8_bytes (dumps 2 false schemas_A)
  = "{" ++ nl ++ "  " ++ dq ++ "A" ++ dq ++ ": {" ++ nl
    ++ "    " ++ dq ++ "type" ++ dq ++ ": " ++ dq ++ "object" ++ dq ++ nl
    ++ "  }" ++ nl ++ "}".
Proof. reflexivity. Qed.

(** With [ensure_ascii=False] a non-ASCII character is written as it is;
    with [ensure_ascii=True] it would be escaped. *)
Example dumps_non_ascii :
  utf8_bytes (dumps 2 false (JStr [0xE9%N])) = dq ++ "é" ++ dq
  /\ utf8_bytes (dumps 2 true (JStr [0xE9%N])) = dq ++ "\u00e9" ++ dq.
Proof. split; reflexivity. Qed.

(** ** Stepping through the script *)

Lemma print_all_say (lines : list string) (s : Sys) :
  print_all lines s = (inr tt, say lines s).
Proof.
  revert s. induction lines as [|l ls IH]; intros s.
  - unfold say. simpl. rewrite app_nil_r. now destruct s.
  - simpl. unfold bind, print. rewrite IH. unfold say. simpl.
    now rewrite <- app_assoc.
Qed.

Lemma handler_false (e : Exn) (s : Sys) :
  exists s', handler e s = (inr false, s') /\ files s' = files s /\ net_log s' = net_log s.
Proof.
  destruct e as [code reason|reason|tn msg]; unfold handler, bind, print, ret.
  - destruct (code =? 401)%Z; [|destruct (code =? 403)%Z];
      try rewrite print_all_say; eexists; split; try reflexivity; split; reflexivity.
  - rewrite print_all_say. eexists; split; try reflexivity; split; reflexivity.
  - eexists; split; try reflexivity; split; reflexivity.
Qed.

Lemma string_app_nil_r (a : string) : a ++ "" = a.
Proof. induction a as [|x a IH]; simpl; [reflexivity | now rewrite IH]. Qed.

Lemma write_chunks_eq (chunks : list pystr) (s : Sys) (dir : bool) (old : string) :
  files s = mkFiles dir (Some old) ->
  write_chunks chunks s =
    (match refused_chunk chunks with
     | Some c => inl (UnicodeEncodeError c)
     | None => inr tt
     end,
     with_files (mkFiles dir (Some (old ++ utf8_bytes (List.concat (written_chunks chunks))))) s).
Proof.
  revert s old. induction chunks as [|c cs IH]; intros s old Hs.
  - simpl. unfold ret, with_files. rewrite string_app_nil_r, <- Hs. now destruct s.
  - simpl. unfold bind, f_write. destruct (encodable c) eqn:Ec.
    + rewrite Hs. simpl.
      rewrite (IH _ (old ++ utf8_bytes c)) by reflexivity.
      unfold with_files. simpl.
      now rewrite utf8_bytes_app, string_app_assoc.
    + simpl. unfold with_files. rewrite string_app_nil_r, <- Hs. now destruct s.
Qed.

Lemma refused_chunk_none (chunks : list pystr) :
  refused_chunk chunks = None <-> forallb encodable chunks = true.
Proof.
  induction chunks as [|c cs IH]; simpl; [tauto|].
  destruct (encodable c); simpl; [exact IH | split; discriminate].
Qed.

Lemma written_chunks_all (chunks : list pystr) :
  forallb encodable chunks = true -> written_chunks chunks = chunks.
Proof.
  induction chunks as [|c cs IH]; simpl; [reflexivity|].
  destruct (encodable c); simpl; [|discriminate].
  intros H. now rewrite IH.
Qed.

(** [save_steps] case by case. *)
Lemma save_steps_eq (w : World) (v : json) (s : Sys) :
  save_steps w v s =
    match mkdir_fault w with
    | Some e => (inl e, s)
    | None =>
        match open_fault w with
        | Some e => (inl e, with_files (mkFiles true (schema_json (files s))) s)
        | None =>
            match refused_chunk (iterencode 2 false v 0) with
            | Some c => (inl (UnicodeEncodeError c), with_files (dumped_files v) s)
            | None =>
                match py_len v with
                | inl e =>
                    (inl e, say [saved_line (schema_file_name w)]
                              (with_files (dumped_files v) s))
                | inr n =>
                    (inr true, say [saved_line (schema_file_name w); count_line n]
                                 (with_files (dumped_files v) s))
                end
            end
        end
    end.
Proof.
  unfold save_steps, bind, mkdir.
  destruct (mkdir_fault w); [reflexivity|].
  unfold open_w. cbv beta iota. destruct (open_fault w); [reflexivity|].
  cbv beta iota. unfold json_dump.
  rewrite (write_chunks_eq _ _ true "") by reflexivity.
  destruct (refused_chunk (iterencode 2 false v 0)); [reflexivity|].
  unfold print, lift. cbv beta iota.
  destruct (py_len v); unfold say, with_files, dumped_files, ret; simpl.
  - reflexivity.
  - now rewrite <- app_assoc.
Qed.

(** [try_body] case by case. *)
Lemma try_body_eq (w : World) (s : Sys) :
  try_body w s =
    match Request_init w (schema_url w) with
    | Some e => (inl e, s)
    | None =>
        match urlopen w (request_of w) 30 with
        | inl e => (inl e, sent w s)
        | inr response =>
            if negb (status response =? 200)%Z then
              (inr false, say [status_line (status response)] (sent w s))
            else
              match body response with
              | inl e => (inl e, sent w s)
              | inr full_spec =>
                  match extract_schemas full_spec with
                  | inl e => (inl e, sent w s)
                  | inr schema_data =>
                      if negb (truthy schema_data) then
                        (inr false, say [no_schemas_line] (sent w s))
                      else save_steps w schema_data (sent w s)
                  end
              end
        end
    end.
Proof.
  unfold try_body, bind, Request_.
  destruct (Request_init w (schema_url w)); [reflexivity|].
  unfold ret, urlopen_. cbv beta iota zeta. fold (request_of w). fold (sent w s).
  destruct (urlopen w (request_of w) 30) as [e|response]; [reflexivity|].
  destruct (negb (status response =? 200)%Z); [reflexivity|].
  unfold lift. destruct (body response) as [e|full_spec]; [reflexivity|].
  destruct (extract_schemas full_spec) as [e|schema_data]; [reflexivity|].
  destruct (negb (truthy schema_data)); reflexivity.
Qed.

(** [load_schema] and [run] in terms of [try_body]. *)
Lemma load_schema_missing (w : World) (s : Sys) :
  str_truthy (directus_token w) = false ->
  load_schema w s = (inr false, say missing_token_lines s).
Proof.
  intros H. unfold load_schema. rewrite H. cbn [negb]. unfold bind.
  now rewrite print_all_say.
Qed.

Lemma load_schema_try (w : World) (s : Sys) :
  str_truthy (directus_token w) = true ->
  load_schema w s =
    match try_body w (say [fetching_line (schema_url w)] s) with
    | (inl e, s') => handler e s'
    | (inr b, s') => (inr b, s')
    end.
Proof.
  intros H. unfold load_schema. rewrite H. reflexivity.
Qed.

Lemma run_eq (w : World) (fs : Files) :
  run w fs =
    match load_schema w (say banner_lines (boot fs)) with
    | (inr b, s) => mkOutcome (if b then 0 else 1)%Z None (say closing_lines s)
    | (inl e, s) => mkOutcome 1 (Some e) s
    end.
Proof.
  unfold run, main, bind, print, ret, say, boot, banner_lines, closing_lines. simpl.
  destruct (load_schema w _) as [[e|b] s]; simpl; [reflexivity|].
  now rewrite <- app_assoc.
Qed.

Ltac stage_fails :=
  right; split;
  [ intros (_ & Hr' & resp' & doc' & v' & n' & Hu' & Hs' & Hb' & He' & Hv' & Hm' & Ho' & Hc' & Hl');
    try apply refused_chunk_none in Hc'; congruence
  | try (eexists; reflexivity);
    match goal with
    | |- exists s', handler ?e ?s = _ =>
        destruct (handler_false e s) as (s1 & H1 & _); exists s1; exact H1
    end ].

(** [load_schema] always returns a boolean, and returns [True] exactly when
    every step succeeds. *)
Lemma load_schema_cases (w : World) (s : Sys) :
  (full_success w /\ exists s', load_schema w s = (inr true, s'))
  \/ (~ full_success w /\ exists s', load_schema w s = (inr false, s')).
Proof.
  destruct (str_truthy (directus_token w)) eqn:Ht.
  2:{ right. split.
      - intros (Ht' & _). congruence.
      - rewrite load_schema_missing by assumption. eexists; reflexivity. }
  rewrite load_schema_try by assumption. rewrite try_body_eq.
  destruct (Request_init w (schema_url w)) eqn:Hr; [stage_fails|].
  destruct (urlopen w (request_of w) 30) as [e|resp] eqn:Hu; [stage_fails|].
  destruct (status resp =? 200)%Z eqn:Hs; cbn [negb];
    [apply Z.eqb_eq in Hs | apply Z.eqb_neq in Hs; stage_fails].
  destruct (body resp) as [e|doc] eqn:Hb; [stage_fails|].
  destruct (extract_schemas doc) as [e|v] eqn:He; [stage_fails|].
  destruct (truthy v) eqn:Hv; cbn [negb]; [|stage_fails].
  rewrite save_steps_eq.
  destruct (mkdir_fault w) eqn:Hm; [stage_fails|].
  destruct (open_fault w) eqn:Ho; [stage_fails|].
  destruct (refused_chunk (iterencode 2 false v 0)) eqn:Hc; [stage_fails|].
  destruct (py_len v) as [e|n] eqn:Hl; [stage_fails|].
  left. split; [|eexists; reflexivity].
  apply refused_chunk_none in Hc.
  split; [assumption|]. split; [assumption|].
  exists resp, doc, v, n. repeat (split; [assumption|]). assumption.
Qed.

(** The exit status is 0 exactly when every step succeeds, and 1 otherwise;
    nothing escapes [main]. *)
Lemma run_cases (w : World) (fs : Files) :
  (full_success w /\ exit_status (run w fs) = 0%Z /\ escaped (run w fs) = None)
  \/ (~ full_success w /\ exit_status (run w fs) = 1%Z /\ escaped (run w fs) = None).
Proof.
  rewrite run_eq.
  destruct (load_schema_cases w (say banner_lines (boot fs))) as [[H [s' E]]|[H [s' E]]];
    rewrite E; [left | right]; (split; [assumption|]); split; reflexivity.
Qed.

Lemma run_success_iff (w : World) (fs : Files) :
  exit_status (run w fs) = 0%Z <-> full_success w.
Proof.
  destruct (run_cases w fs) as [(H & E & _)|(H & E & _)]; rewrite E; split; intros;
    try reflexivity; try assumption; try discriminate; contradiction.
Qed.

Lemma run_missing (w : World) (fs : Files) :
  str_truthy (directus_token w) = false ->
  run w fs = mkOutcome 1 None (mkSys (console missing_token_lines) [] fs).
Proof.
  intros H. rewrite run_eq, load_schema_missing by assumption. reflexivity.
Qed.

Lemma run_try (w : World) (fs : Files) :
  str_truthy (directus_token w) = true ->
  run w fs =
    match try_body w (say (banner_lines ++ [fetching_line (schema_url w)]) (boot fs)) with
    | (inr b, s) => mkOutcome (if b then 0 else 1)%Z None (say closing_lines s)
    | (inl e, s) =>
        match handler e s with
        | (inr b, s') => mkOutcome (if b then 0 else 1)%Z None (say closing_lines s')
        | (inl e', s') => mkOutcome 1 (Some e') s'
        end
    end.
Proof.
  intros H. rewrite run_eq, load_schema_try by assumption.
  change (say [fetching_line (schema_url w)] (say banner_lines (boot fs)))
    with (say (banner_lines ++ [fetching_line (schema_url w)]) (boot fs)).
  destruct (try_body w _) as [[e|b] s]; reflexivity.
Qed.

(** A token that is absent or empty is falsy, any other is truthy. *)
Lemma str_truthy_false (v : option string) :
  str_truthy v = false <-> v = None \/ v = Some "".
Proof.
  destruct v as [t|]; simpl.
  - destruct (String.eqb_spec t ""); simpl; split; intros H; try discriminate.
    + right. now subst.
    + reflexivity.
    + destruct H as [H|H]; [discriminate | congruence].
  - split; auto.
Qed.

(** ** Missing credential *)

(** C2. When DIRECTUS_TOKEN is absent or set to the empty string, the run
    hands no request to [urlopen], prints the banner, the guidance on
    creating a token and exporting it, and the closing rule, leaves the
    files as they were, and exits with status 1. *)
Theorem missing_credential_no_network (w : World) (fs : Files) :
  environ w "DIRECTUS_TOKEN" = None \/ environ w "DIRECTUS_TOKEN" = Some "" ->
  net_log (final (run w fs)) = []
  /\ stdout (final (run w fs)) = console missing_token_lines
  /\ files (final (run w fs)) = fs
  /\ exit_status (run w fs) = 1%Z.
Proof.
  intros H. apply str_truthy_false in H.
  rewrite (run_missing w fs H). repeat split.
Qed.

Lemma missing_credential_witness :
  (environ world_no_token "DIRECTUS_TOKEN" = None
   \/ environ world_no_token "DIRECTUS_TOKEN"
      = Some "")
  /\ (net_log (final (run world_no_token old_files)) = []
      /\ stdout (final (run world_no_token old_files))
         = console missing_token_lines
      /\ files (final (run world_no_token old_files))
         = old_files
      /\ exit_status (run world_no_token old_files)
         = 1%Z).
Proof.
  split.
  - right. reflexivity.
  - apply (missing_credential_no_network world_no_token old_files).
    right. reflexivity.
Defined.

(** ** HTTP errors *)

Lemma run_http_error (w : World) (fs : Files) (code : Z) (reason : string) :
  str_truthy (directus_token w) = true ->
  Request_init w (schema_url w) = None ->
  urlopen w (request_of w) 30 = inl (HTTPError code reason) ->
  run w fs =
    mkOutcome 1 None
      (mkSys (console (fetching_line (schema_url w) :: http_error_line code reason
                         :: http_guidance code))
         [(request_of w, 30%Z)] fs).
Proof.
  intros Ht Hr Hu. rewrite run_try, try_body_eq, Hr, Hu by assumption.
  unfold handler, http_guidance, bind, print, ret.
  destruct (code =? 401)%Z; [|destruct (code =? 403)%Z];
    rewrite ?print_all_say; reflexivity.
Qed.

(** C3. When [urlopen] raises an [HTTPError], the run prints the line
    "HTTP Error: <code> - <reason>" with the code and the reason as
    received; after it the authentication guidance when the code is 401,
    the permission guidance when it is 403, and nothing more for any other
    code.  In every case the files are left as they were and the exit status
    is 1. *)
Theorem http_error_classification (w : World) (fs : Files) (code : Z) (reason : string) :
  str_truthy (directus_token w) = true ->
  Request_init w (schema_url w) = None ->
  urlopen w (request_of w) 30 = inl (HTTPError code reason) ->
  stdout (final (run w fs))
    = console (fetching_line (schema_url w)
                 :: ("❌ HTTP Error: " ++ str_of_int code ++ " - " ++ reason)
                 :: (if (code =? 401)%Z then authentication_lines
                     else if (code =? 403)%Z then permission_lines
                     else []))
  /\ files (final (run w fs)) = fs
  /\ exit_status (run w fs) = 1%Z.
Proof.
  intros Ht Hr Hu. rewrite (run_http_error w fs code reason Ht Hr Hu).
  repeat split.
Qed.

(** ** The encoder writes only encodable chunks for a document without
    unpaired surrogates *)

Section JsonInduction.

Variable P : json -> Prop.
Hypothesis HNull : P JNull.
Hypothesis HBool : forall b, P (JBool b).
Hypothesis HInt : forall n, P (JInt n).
Hypothesis HFloat : forall t, P (JFloat t).
Hypothesis HStr : forall s, P (JStr s).
Hypothesis HList : forall l, Forall P l -> P (JList l).
Hypothesis HDict : forall d, Forall (fun kv => P (snd kv)) d -> P (JDict d).

Lemma json_nested_ind : forall o, P o.
Proof.
  fix IH 1. intros [ | b | n | t | s | l | d].
  - exact HNull.
  - apply HBool.
  - apply HInt.
  - apply HFloat.
  - apply HStr.
  - apply HList. induction l as [|x l IHl]; constructor; [apply IH | exact IHl].
  - apply HDict. induction d as [|[k v] d IHd]; constructor; [apply IH | exact IHd].
Qed.

End JsonInduction.

Lemma iterencode_list_eq (indent : nat) (ea : bool) (x : json) (l : list json) (level : nat) :
  iterencode indent ea (JList (x :: l)) level
  = (iterencode_list_items indent ea level true (x :: l)
     ++ [newline_indent indent level; lit "]"])%list.
Proof. reflexivity. Qed.

Lemma iterencode_dict_eq (indent : nat) (ea : bool) (kv : pystr * json)
      (d : list (pystr * json)) (level : nat) :
  iterencode indent ea (JDict (kv :: d)) level
  = ([lit "{"; newline_indent indent (S level)]
     ++ iterencode_dict_items indent ea level true (kv :: d)
     ++ [newline_indent indent level; lit "}"])%list.
Proof. reflexivity. Qed.

Lemma newline_indent_encodable (indent level : nat) :
  encodable (newline_indent indent level) = true.
Proof.
  unfold newline_indent. rewrite encodable_app. simpl.
  apply encodable_repeat, encodable_repeat, encodable_lit.
Qed.

Lemma separator_encodable (indent level : nat) :
  encodable (item_separator ++ newline_indent indent level)%list = true.
Proof.
  rewrite encodable_app, newline_indent_encodable. reflexivity.
Qed.

Lemma escape_short_encodable (c : N) (e : pystr) :
  escape_short c = Some e -> encodable e = true.
Proof.
  unfold escape_short.
  repeat match goal with
         | |- context [if ?b then _ else _] => destruct b
         end;
    intros H; try discriminate; injection H as <-;
    try apply encodable_lit; reflexivity.
Qed.

Lemma encoder_encodable (s : pystr) :
  encodable s = true -> encodable (encoder false s) = true.
Proof.
  intros Hs. unfold encoder. rewrite !encodable_app. simpl.
  rewrite andb_true_r.
  induction s as [|c s IH]; [reflexivity|].
  simpl in Hs. apply andb_prop in Hs. destruct Hs as [Hc Hs].
  simpl. rewrite encodable_app, (IH Hs), andb_true_r.
  unfold escape_char. destruct (escape_short c) eqn:E.
  - exact (escape_short_encodable c _ E).
  - simpl. now rewrite Hc.
Qed.

Lemma scalar_text_encodable (o : json) (t : pystr) :
  scalar_text false o = Some t -> no_surrogates o = true -> encodable t = true.
Proof.
  destruct o as [ | [|] | n | f | s | l | d]; simpl; intros H Hn;
    try discriminate; injection H as <-;
    try apply encodable_lit.
  now apply encoder_encodable.
Qed.

Lemma iterencode_encodable (o : json) :
  no_surrogates o = true ->
  forall level, forallb encodable (iterencode 2 false o level) = true.
Proof.
  induction o as [ | b | n | t | s | l IHl | d IHd] using json_nested_ind;
    intros Hn level.
  - reflexivity.
  - destruct b; reflexivity.
  - simpl. now rewrite encodable_lit.
  - simpl. now rewrite encodable_lit.
  - simpl in Hn. change (encodable (encoder false s) && true = true).
    now rewrite encoder_encodable.
  - destruct l as [|x l]; [reflexivity|].
    rewrite iterencode_list_eq, forallb_app.
    apply andb_true_intro. split.
    2:{ cbn [forallb]. rewrite newline_indent_encodable. reflexivity. }
    simpl in Hn. change (forallb no_surrogates (x :: l) = true) in Hn.
    revert Hn IHl. generalize (x :: l) as items. clear x l.
    enough (G : forall items first,
               forallb no_surrogates items = true ->
               Forall (fun o => no_surrogates o = true ->
                                forall level, forallb encodable (iterencode 2 false o level) = true)
                 items ->
               forallb encodable (iterencode_list_items 2 false level first items) = true)
      by (intros; now apply G).
    induction items as [|v items IH]; intros first Hn Hall; [reflexivity|].
    simpl in Hn. apply andb_prop in Hn. destruct Hn as [Hv Hn].
    inversion Hall as [|? ? HPv Hrest]; subst.
    cbn [iterencode_list_items]. rewrite forallb_app.
    apply andb_true_intro. split; [|now apply IH].
    assert (Hbuf : encodable
                     (if first then (lit "[" ++ newline_indent 2 (S level))%list
                      else (item_separator ++ newline_indent 2 (S level))%list) = true).
    { destruct first; [|apply separator_encodable].
      rewrite encodable_app, newline_indent_encodable. reflexivity. }
    destruct (scalar_text false v) as [t|] eqn:E.
    + cbn [forallb]. rewrite encodable_app, (scalar_text_encodable v t E Hv), !andb_true_r.
      exact Hbuf.
    + cbn [forallb]. apply andb_true_intro. split; [exact Hbuf | now apply HPv].
  - destruct d as [|kv d]; [reflexivity|].
    rewrite iterencode_dict_eq.
    change ([lit "{"; newline_indent 2 (S level)]
            ++ iterencode_dict_items 2 false level true (kv :: d)
            ++ [newline_indent 2 level; lit "}"])%list
      with (lit "{" :: newline_indent 2 (S level)
              :: (iterencode_dict_items 2 false level true (kv :: d)
                  ++ [newline_indent 2 level; lit "}"]))%list.
    cbn [forallb]. rewrite newline_indent_encodable, forallb_app.
    cbn [forallb]. rewrite newline_indent_encodable.
    change (encodable (lit "{")) with true. change (encodable (lit "}")) with true.
    cbn [andb]. rewrite andb_true_r.
    change (forallb (fun kv : pystr * json => let (k, v) := kv in encodable k && no_surrogates v)
              (kv :: d) = true) in Hn.
    revert Hn IHd. generalize (kv :: d) as items. clear kv d.
    enough (G : forall items first,
               forallb (fun kv : pystr * json =>
                          let (k, v) := kv in encodable k && no_surrogates v) items = true ->
               Forall (fun kv : pystr * json =>
                         no_surrogates (snd kv) = true ->
                         forall level,
                           forallb encodable (iterencode 2 false (snd kv) level) = true)
                 items ->
               forallb encodable (iterencode_dict_items 2 false level first items) = true)
      by (intros; now apply G).
    induction items as [|[k v] items IH]; intros first Hn Hall; [reflexivity|].
    simpl in Hn. apply andb_prop in Hn. destruct Hn as [Hkv Hn].
    apply andb_prop in Hkv. destruct Hkv as [Hk Hv].
    inversion Hall as [|? ? HPv Hrest]; subst. simpl in HPv.
    cbn [iterencode_dict_items]. rewrite !forallb_app.
    rewrite (IH false Hn Hrest), andb_true_r.
    assert (Hsep : encodable (item_separator ++ newline_indent 2 (S level))%list = true)
      by apply separator_encodable.
    assert (Hkey : encodable (encoder false k) = true) by now apply encoder_encodable.
    apply andb_true_intro. split.
    { destruct first; [reflexivity|]. cbn [forallb]. apply andb_true_intro.
      split; [exact Hsep | reflexivity]. }
    apply andb_true_intro. split.
    { cbn [forallb]. apply andb_true_intro. split; [exact Hkey | reflexivity]. }
    destruct (scalar_text false v) as [t|] eqn:E.
    + cbn [forallb]. now rewrite (scalar_text_encodable v t E Hv).
    + now apply HPv.
Qed.

Lemma http_error_witness :
  stdout (final (run world_401 old_files))
    = console (fetching_line (schema_url world_401)
                 :: ("❌ HTTP Error: " ++ str_of_int 401 ++ " - " ++ "Unauthorized")
                 :: (if (401 =? 401)%Z then authentication_lines
                     else if (401 =? 403)%Z then permission_lines
                     else []))
  /\ files (final (run world_401 old_files)) = old_files
  /\ exit_status (run world_401 old_files) = 1%Z.
Proof.
  apply (http_error_classification world_401 old_files 401 "Unauthorized"); reflexivity.
Defined.

(** ** Responses with a status other than 200 *)

Lemma run_bad_status (w : World) (fs : Files) (resp : Response) :
  str_truthy (directus_token w) = true ->
  Request_init w (schema_url w) = None ->
  urlopen w (request_of w) 30 = inr resp ->
  status resp <> 200%Z ->
  run w fs =
    mkOutcome 1 None
      (mkSys (console [fetching_line (schema_url w); status_line (status resp)])
         [(request_of w, 30%Z)] fs).
Proof.
  intros Ht Hr Hu Hs. apply Z.eqb_neq in Hs.
  rewrite run_try, try_body_eq, Hr, Hu, Hs by assumption. reflexivity.
Qed.

(** C4. A response that [urlopen] returns with a status other than 200, a
    2xx one with a body included, makes the run print "Received status code
    <status>" and exit with status 1, with the files left as they were; a
    status outside 2xx, which [urlopen] raises as [HTTPError], is printed
    in the "HTTP Error" line and the run exits with status 1 as well; and a
    run that exits with status 0 has received status 200. *)
Theorem only_status_200_succeeds (w : World) (fs : Files) :
  str_truthy (directus_token w) = true ->
  Request_init w (schema_url w) = None ->
  (forall resp,
      urlopen w (request_of w) 30 = inr resp ->
      status resp <> 200%Z ->
      stdout (final (run w fs))
        = console [fetching_line (schema_url w);
                   "❌ ERROR: Received status code " ++ str_of_int (status resp)]
      /\ files (final (run w fs)) = fs
      /\ exit_status (run w fs) = 1%Z)
  /\ (forall code reason,
        urlopen w (request_of w) 30 = inl (HTTPError code reason) ->
        In ("❌ HTTP Error: " ++ str_of_int code ++ " - " ++ reason) (stdout (final (run w fs)))
        /\ files (final (run w fs)) = fs
        /\ exit_status (run w fs) = 1%Z)
  /\ (exit_status (run w fs) = 0%Z ->
      exists resp, urlopen w (request_of w) 30 = inr resp /\ status resp = 200%Z).
Proof.
  intros Ht Hr. split; [|split].
  - intros resp Hu Hs. rewrite (run_bad_status w fs resp Ht Hr Hu Hs). repeat split.
  - intros code reason Hu. rewrite (run_http_error w fs code reason Ht Hr Hu).
    split; [|split; reflexivity].
    cbn [final stdout]. unfold console. apply in_or_app. right.
    right. left. reflexivity.
  - intros H0. apply run_success_iff in H0.
    destruct H0 as (_ & _ & resp & doc & v & n & Hu & Hs & _).
    exists resp. split; assumption.
Qed.

Lemma only_status_200_witness :
  (forall resp,
      urlopen world_204 (request_of world_204) 30 = inr resp ->
      status resp <> 200%Z ->
      stdout (final (run world_204 old_files))
        = console [fetching_line (schema_url world_204);
                   "❌ ERROR: Received status code " ++ str_of_int (status resp)]
      /\ files (final (run world_204 old_files)) = old_files
      /\ exit_status (run world_204 old_files) = 1%Z)
  /\ (forall code reason,
        urlopen world_204 (request_of world_204) 30 = inl (HTTPError code reason) ->
        In ("❌ HTTP Error: " ++ str_of_int code ++ " - " ++ reason)
          (stdout (final (run world_204 old_files)))
        /\ files (final (run world_204 old_files)) = old_files
        /\ exit_status (run world_204 old_files) = 1%Z)
  /\ (exit_status (run world_204 old_files) = 0%Z ->
      exists resp,
        urlopen world_204 (request_of world_204) 30 = inr resp /\ status resp = 200%Z).
Proof.
  apply (only_status_200_succeeds world_204 old_files); reflexivity.
Defined.

(** The 204 response of [world_204] is reported with its code. *)
Example status_204_reported :
  stdout (final (run world_204 old_files))
  = console ["🔍 Fetching schema from: https://directus.bounteer.com/server/specs/oas";
             "❌ ERROR: Received status code 204"]
  /\ exit_status (run world_204 old_files) = 1%Z.
Proof. split; reflexivity. Qed.

(** ** Transport failures *)

Lemma run_url_error (w : World) (fs : Files) (reason : string) :
  str_truthy (directus_token w) = true ->
  Request_init w (schema_url w) = None ->
  urlopen w (request_of w) 30 = inl (URLError reason) ->
  run w fs =
    mkOutcome 1 None
      (mkSys (console (fetching_line (schema_url w) :: connection_error_line reason
                         :: connection_lines))
         [(request_of w, 30%Z)] fs).
Proof.
  intros Ht Hr Hu. rewrite run_try, try_body_eq, Hr, Hu by assumption.
  unfold handler, bind, print, ret. rewrite print_all_say. reflexivity.
Qed.

(** C7, as the code has it.  When [urlopen] raises [URLError], which is
    how urllib reports a failure to resolve the name, a refused connection,
    a failed TLS handshake and a timeout that elapses while connecting, the
    run prints "Connection Error: <reason>" and the connectivity checklist
    (URL, instance running, network, firewall), leaves the files as they
    were, and exits with status 1. *)
Theorem connection_failure_diagnostic (w : World) (fs : Files) (reason : string) :
  str_truthy (directus_token w) = true ->
  Request_init w (schema_url w) = None ->
  urlopen w (request_of w) 30 = inl (URLError reason) ->
  stdout (final (run w fs))
    = console (fetching_line (schema_url w)
                 :: ("❌ Connection Error: " ++ reason)
                 :: connection_lines)
  /\ files (final (run w fs)) = fs
  /\ exit_status (run w fs) = 1%Z.
Proof.
  intros Ht Hr Hu. rewrite (run_url_error w fs reason Ht Hr Hu). repeat split.
Qed.

Lemma connection_failure_witness :
  stdout (final (run world_refused old_files))
    = console (fetching_line (schema_url world_refused)
                 :: ("❌ Connection Error: " ++ "[Errno 111] Connection refused")
                 :: connection_lines)
  /\ files (final (run world_refused old_files)) = old_files
  /\ exit_status (run world_refused old_files) = 1%Z.
Proof.
  apply (connection_failure_diagnostic world_refused old_files
           "[Errno 111] Connection refused"); reflexivity.
Defined.

(** Every failure that [do_open] meets while sending the request is
    reported with the connectivity checklist. *)
Lemma sending_failure_diagnostic (w : World) (fs : Files) (f : TransportFailure) :
  str_truthy (directus_token w) = true ->
  Request_init w (schema_url w) = None ->
  urlopen w (request_of w) 30 = inl (do_open_error f) ->
  phase f = Sending ->
  stdout (final (run w fs))
    = console (fetching_line (schema_url w)
                 :: connection_error_line (error_text f) :: connection_lines)
  /\ exit_status (run w fs) = 1%Z.
Proof.
  intros Ht Hr Hu Hp. unfold do_open_error in Hu. rewrite Hp in Hu.
  rewrite (run_url_error w fs (error_text f) Ht Hr Hu). split; reflexivity.
Qed.

(** C7, as stated, fails when the 30 seconds elapse while the response is
    awaited: [urlopen] then raises [TimeoutError] itself, not wrapped in
    [URLError], and the run reports an unexpected error without the
    connectivity checklist. *)
Lemma response_timeout_is_unexpected_error :
  urlopen world_response_timeout (request_of world_response_timeout) 30
    = inl (do_open_error response_timeout)
  /\ stdout (final (run world_response_timeout old_files))
     = console ["🔍 Fetching schema from: https://directus.bounteer.com/server/specs/oas";
                "❌ Unexpected Error: TimeoutError: The read operation timed out"]
  /\ ~ In "Unable to connect to Directus instance."
         (stdout (final (run world_response_timeout old_files)))
  /\ exit_status (run world_response_timeout old_files) = 1%Z.
Proof.
  assert (E : stdout (final (run world_response_timeout old_files))
              = console ["🔍 Fetching schema from: https://directus.bounteer.com/server/specs/oas";
                         "❌ Unexpected Error: TimeoutError: The read operation timed out"])
    by reflexivity.
  split; [reflexivity|]. split; [exact E|]. split; [|reflexivity].
  rewrite E. vm_compute. intros H.
  repeat (destruct H as [H|H]; [discriminate H|]). exact H.
Qed.

(** ** Extraction *)

Lemma run_no_schemas (w : World) (fs : Files) (resp : Response) (doc v : json) :
  str_truthy (directus_token w) = true ->
  Request_init w (schema_url w) = None ->
  urlopen w (request_of w) 30 = inr resp ->
  status resp = 200%Z ->
  body resp = inr doc ->
  extract_schemas doc = inr v ->
  truthy v = false ->
  run w fs =
    mkOutcome 1 None
      (mkSys (console [fetching_line (schema_url w); no_schemas_line])
         [(request_of w, 30%Z)] fs).
Proof.
  intros Ht Hr Hu Hs Hb He Hv. apply Z.eqb_eq in Hs.
  rewrite run_try, try_body_eq, Hr, Hu, Hs, Hb, He, Hv by assumption. reflexivity.
Qed.

Lemma run_extract_raises (w : World) (fs : Files) (resp : Response) (doc : json)
      (type_name message : string) :
  str_truthy (directus_token w) = true ->
  Request_init w (schema_url w) = None ->
  urlopen w (request_of w) 30 = inr resp ->
  status resp = 200%Z ->
  body resp = inr doc ->
  extract_schemas doc = inl (OtherError type_name message) ->
  run w fs =
    mkOutcome 1 None
      (mkSys (console [fetching_line (schema_url w);
                       unexpected_error_line type_name message])
         [(request_of w, 30%Z)] fs).
Proof.
  intros Ht Hr Hu Hs Hb He. apply Z.eqb_eq in Hs.
  rewrite run_try, try_body_eq, Hr, Hu, Hs, Hb, He by assumption. reflexivity.
Qed.

(** C5, as the code has it.  For a parsed document that is an object in
    which "components" is absent, or is an object in which "schemas" is
    absent, the extraction yields the empty mapping without raising, and a
    run on a 200 response with that document prints "No schemas found in
    the OpenAPI specification", leaves the files as they were and exits
    with status 1. *)
Theorem missing_key_is_empty_mapping (top : list (pystr * json)) :
  dict_lookup (lit "components") top = None
  \/ (exists comps, dict_lookup (lit "components") top = Some (JDict comps)
                    /\ dict_lookup (lit "schemas") comps = None) ->
  extract_schemas (JDict top) = inr (JDict [])
  /\ forall (w : World) (fs : Files) (resp : Response),
       str_truthy (directus_token w) = true ->
       Request_init w (schema_url w) = None ->
       urlopen w (request_of w) 30 = inr resp ->
       status resp = 200%Z ->
       body resp = inr (JDict top) ->
       stdout (final (run w fs)) = console [fetching_line (schema_url w); no_schemas_line]
       /\ files (final (run w fs)) = fs
       /\ exit_status (run w fs) = 1%Z.
Proof.
  intros H.
  assert (E : extract_schemas (JDict top) = inr (JDict [])).
  { unfold extract_schemas, py_get.
    destruct H as [H|(comps & H & H')]; rewrite H; [reflexivity|].
    now rewrite H'. }
  split; [exact E|].
  intros w fs resp Ht Hr Hu Hs Hb.
  rewrite (run_no_schemas w fs resp (JDict top) (JDict []) Ht Hr Hu Hs Hb E eq_refl).
  repeat split.
Qed.

Lemma missing_key_witness :
  extract_schemas (JDict [(lit "openapi", JStr (lit "3.0.0"))]) = inr (JDict [])
  /\ forall (w : World) (fs : Files) (resp : Response),
       str_truthy (directus_token w) = true ->
       Request_init w (schema_url w) = None ->
       urlopen w (request_of w) 30 = inr resp ->
       status resp = 200%Z ->
       body resp = inr (JDict [(lit "openapi", JStr (lit "3.0.0"))]) ->
       stdout (final (run w fs)) = console [fetching_line (schema_url w); no_schemas_line]
       /\ files (final (run w fs)) = fs
       /\ exit_status (run w fs) = 1%Z.
Proof.
  apply (missing_key_is_empty_mapping [(lit "openapi", JStr (lit "3.0.0"))]).
  left. reflexivity.
Defined.

(** C5, as stated, fails on [{"components": null}]: the key "schemas" is
    missing inside "components", yet the second [.get] raises
    [AttributeError], which the run reports as an unexpected error and not
    as an empty schema section. *)
Lemma null_components_is_unexpected_error :
  key_missing doc_null_components = true
  /\ extract_schemas doc_null_components
     = inl (OtherError "AttributeError" "'NoneType' object has no attribute 'get'")
  /\ stdout (final (run world_null_components old_files))
     = console [fetching_line (schema_url world_null_components);
                "❌ Unexpected Error: AttributeError: 'NoneType' object has no attribute 'get'"]
  /\ stdout (final (run world_null_components old_files))
     <> console [fetching_line (schema_url world_null_components); no_schemas_line].
Proof.
  repeat split; try reflexivity. discriminate.
Qed.

(** C6. When the value extracted at components.schemas is empty (the empty
    mapping, or any other falsy value), the run prints "ERROR: No schemas
    found in the OpenAPI specification", leaves the files as they were, and
    exits with status 1; and a run that exits with status 0 has extracted a
    non-empty value. *)
Theorem empty_schemas_reported (w : World) (fs : Files) (resp : Response) (doc v : json) :
  str_truthy (directus_token w) = true ->
  Request_init w (schema_url w) = None ->
  urlopen w (request_of w) 30 = inr resp ->
  status resp = 200%Z ->
  body resp = inr doc ->
  extract_schemas doc = inr v ->
  (v = JDict [] \/ truthy v = false ->
   stdout (final (run w fs))
     = console [fetching_line (schema_url w);
                "❌ ERROR: No schemas found in the OpenAPI specification"]
   /\ files (final (run w fs)) = fs
   /\ exit_status (run w fs) = 1%Z)
  /\ (exit_status (run w fs) = 0%Z -> v <> JDict [] /\ truthy v = true).
Proof.
  intros Ht Hr Hu Hs Hb He. split.
  - intros Hv. assert (Hv' : truthy v = false) by (destruct Hv as [->|Hv]; auto).
    rewrite (run_no_schemas w fs resp doc v Ht Hr Hu Hs Hb He Hv'). repeat split.
  - intros H0. apply run_success_iff in H0.
    destruct H0 as (_ & _ & resp' & doc' & v' & n & Hu' & _ & Hb' & He' & Hv' & _).
    assert (v' = v) by congruence. subst v'.
    split; [|assumption]. intros ->. discriminate.
Qed.

Lemma empty_schemas_witness :
  (JDict [] = JDict [] \/ truthy (JDict []) = false ->
   stdout (final (run world_empty old_files))
     = console [fetching_line (schema_url world_empty);
                "❌ ERROR: No schemas found in the OpenAPI specification"]
   /\ files (final (run world_empty old_files)) = old_files
   /\ exit_status (run world_empty old_files) = 1%Z)
  /\ (exit_status (run world_empty old_files) = 0%Z ->
      JDict [] <> JDict [] /\ truthy (JDict []) = true).
Proof.
  apply (empty_schemas_reported world_empty old_files
           (mkResponse 200 (inr (components_with (JDict []))))
           (components_with (JDict [])) (JDict [])); reflexivity.
Defined.

(** ** The successful run *)

Lemma run_saved (w : World) (fs : Files) (resp : Response) (doc v : json) (n : nat) :
  str_truthy (directus_token w) = true ->
  Request_init w (schema_url w) = None ->
  urlopen w (request_of w) 30 = inr resp ->
  status resp = 200%Z ->
  body resp = inr doc ->
  extract_schemas doc = inr v ->
  truthy v = true ->
  mkdir_fault w = None ->
  open_fault w = None ->
  forallb encodable (iterencode 2 false v 0) = true ->
  py_len v = inr n ->
  run w fs =
    mkOutcome 0 None
      (mkSys (console [fetching_line (schema_url w); saved_line (schema_file_name w);
                       count_line n])
         [(request_of w, 30%Z)]
         (mkFiles true (Some (utf8_bytes (dumps 2 false v))))).
Proof.
  intros Ht Hr Hu Hs Hb He Hv Hm Ho Hc Hl. apply Z.eqb_eq in Hs.
  rewrite run_try, try_body_eq, Hr, Hu, Hs, Hb, He, Hv by assumption.
  cbn [negb]. rewrite save_steps_eq, Hm, Ho.
  rewrite (proj2 (refused_chunk_none _) Hc), Hl.
  unfold dumped_files. rewrite (written_chunks_all _ Hc). reflexivity.
Qed.

(** C1, as the code has it.  For a 200 response whose body parses to a
    document with a non-empty object at components.schemas, none of whose
    strings holds an unpaired surrogate, and when creating the directory and
    opening the file succeed, the run leaves in reference/schema.json
    exactly the UTF-8 bytes of that object serialised with a 2-space indent
    and [ensure_ascii=False], whatever the file held before, prints the two
    confirmation lines, and exits with status 0. *)
Theorem successful_round_trip (w : World) (fs : Files) (resp : Response)
        (top comps : list (pystr * json)) (kv : pystr * json) (rest : list (pystr * json)) :
  str_truthy (directus_token w) = true ->
  Request_init w (schema_url w) = None ->
  urlopen w (request_of w) 30 = inr resp ->
  status resp = 200%Z ->
  body resp = inr (JDict top) ->
  dict_lookup (lit "components") top = Some (JDict comps) ->
  dict_lookup (lit "schemas") comps = Some (JDict (kv :: rest)) ->
  no_surrogates (JDict (kv :: rest)) = true ->
  mkdir_fault w = None ->
  open_fault w = None ->
  files (final (run w fs))
    = mkFiles true (Some (utf8_bytes (dumps 2 false (JDict (kv :: rest)))))
  /\ stdout (final (run w fs))
     = console [fetching_line (schema_url w); saved_line (schema_file_name w);
                count_line (S (List.length rest))]
  /\ exit_status (run w fs) = 0%Z.
Proof.
  intros Ht Hr Hu Hs Hb Hc Hsch Hn Hm Ho.
  assert (He : extract_schemas (JDict top) = inr (JDict (kv :: rest))).
  { unfold extract_schemas, py_get. now rewrite Hc, Hsch. }
  rewrite (run_saved w fs resp (JDict top) (JDict (kv :: rest)) (S (List.length rest))
             Ht Hr Hu Hs Hb He eq_refl Hm Ho (iterencode_encodable _ Hn 0%nat) eq_refl).
  repeat split.
Qed.

Lemma successful_round_trip_witness :
  files (final (run world_A old_files))
    = mkFiles true
        (Some ("{" ++ nl ++ "  " ++ dq ++ "A" ++ dq ++ ": {" ++ nl
               ++ "    " ++ dq ++ "type" ++ dq ++ ": " ++ dq ++ "object" ++ dq ++ nl
               ++ "  }" ++ nl ++ "}"))
  /\ stdout (final (run world_A old_files))
     = console [fetching_line (schema_url world_A); saved_line (schema_file_name world_A);
                count_line 1]
  /\ exit_status (run world_A old_files) = 0%Z.
Proof.
  apply (successful_round_trip world_A old_files
           (mkResponse 200 (inr (components_with schemas_A)))
           [(lit "components", JDict [(lit "schemas", schemas_A)])]
           [(lit "schemas", schemas_A)]
           (lit "A", JDict [(lit "type", JStr (lit "object"))]) []); reflexivity.
Defined.

(** C1, as stated, fails on the 200 response whose body is
    [{"components": {"schemas": {"A": {"title": "\ud800"}}}}]: the object at
    components.schemas is non-empty, but the text file refuses the chunk
    that holds U+D800, so the run reports [UnicodeEncodeError], exits with
    status 1, and leaves the file truncated to the chunks written before. *)
Lemma surrogate_document_fails :
  urlopen world_surrogate (request_of world_surrogate) 30
    = inr (mkResponse 200 (inr (components_with schemas_surrogate)))
  /\ extract_schemas (components_with schemas_surrogate) = inr schemas_surrogate
  /\ truthy schemas_surrogate = true
  /\ exit_status (run world_surrogate old_files) = 1%Z
  /\ stdout (final (run world_surrogate old_files))
     = console [fetching_line (schema_url world_surrogate);
                "❌ Unexpected Error: UnicodeEncodeError: 'utf-8' codec can't encode character '\ud800' in position 1: surrogates not allowed"]
  /\ files (final (run world_surrogate old_files))
     = mkFiles true
         (Some ("{" ++ nl ++ "  " ++ dq ++ "A" ++ dq ++ ": {" ++ nl
                ++ "    " ++ dq ++ "title" ++ dq ++ ": ")).
Proof.
  repeat split; reflexivity.
Qed.

(** ** What a failed run leaves on disk *)

Ltac file_kept :=
  right;
  match goal with
  | |- exists s', handler ?e ?s = _ /\ _ =>
      destruct (handler_false e s) as (s1 & H1 & Hf & _);
      exists s1; split; [exact H1 | rewrite Hf; reflexivity]
  | |- _ => eexists; split; reflexivity
  end.

Lemma load_schema_file (w : World) (s : Sys) :
  opens_file w
  \/ exists s', load_schema w s = (inr false, s')
                /\ schema_json (files s') = schema_json (files s).
Proof.
  destruct (str_truthy (directus_token w)) eqn:Ht.
  2:{ right. rewrite load_schema_missing by assumption. eexists; split; reflexivity. }
  rewrite load_schema_try by assumption. rewrite try_body_eq.
  destruct (Request_init w (schema_url w)) eqn:Hr; [file_kept|].
  destruct (urlopen w (request_of w) 30) as [e|resp] eqn:Hu; [file_kept|].
  destruct (status resp =? 200)%Z eqn:Hs; cbn [negb];
    [apply Z.eqb_eq in Hs | file_kept].
  destruct (body resp) as [e|doc] eqn:Hb; [file_kept|].
  destruct (extract_schemas doc) as [e|v] eqn:He; [file_kept|].
  destruct (truthy v) eqn:Hv; cbn [negb]; [|file_kept].
  rewrite save_steps_eq.
  destruct (mkdir_fault w) eqn:Hm; [file_kept|].
  destruct (open_fault w) eqn:Ho; [file_kept|].
  left. split; [assumption|]. split; [assumption|].
  exists resp, doc, v. repeat (split; [assumption|]). assumption.
Qed.

(** C8, as the code has it.  A run that does not get as far as opening
    reference/schema.json for writing (missing credential, request or
    transport or HTTP error, status other than 200, body not parsed,
    extraction raising, empty extraction, directory or file not creatable)
    exits with status 1 and leaves the content of the file, or its absence,
    as it was. *)
Theorem failure_before_open_keeps_file (w : World) (fs : Files) :
  ~ opens_file w ->
  exit_status (run w fs) = 1%Z
  /\ schema_json (files (final (run w fs))) = schema_json fs.
Proof.
  intros Hno. rewrite run_eq.
  destruct (load_schema_file w (say banner_lines (boot fs))) as [H|(s' & E & Hf)];
    [contradiction|].
  rewrite E. split; [reflexivity | exact Hf].
Qed.

Lemma failure_before_open_witness :
  exit_status (run world_401 old_files) = 1%Z
  /\ schema_json (files (final (run world_401 old_files))) = schema_json old_files.
Proof.
  apply (failure_before_open_keeps_file world_401 old_files).
  intros (_ & _ & resp & doc & v & Hu & _). discriminate Hu.
Defined.

(** C8, as stated, fails on the 200 response whose body is
    [{"components": {"schemas": {"Pet": {"description": "\udc00"}, "Tag": {}}}}]:
    the file is opened, which discards the previous content ["old"], the
    chunks up to the refused one are written, and the run fails with status
    1, leaving a partial document behind. *)
Lemma failed_run_overwrites_file :
  schema_json old_files = Some "old"
  /\ exit_status (run world_partial old_files) = 1%Z
  /\ schema_json (files (final (run world_partial old_files)))
     = Some ("{" ++ nl ++ "  " ++ dq ++ "Pet" ++ dq ++ ": {" ++ nl
             ++ "    " ++ dq ++ "description" ++ dq ++ ": ")
  /\ schema_json (files (final (run world_partial old_files))) <> schema_json old_files.
Proof.
  assert (E : schema_json (files (final (run world_partial old_files)))
              = Some ("{" ++ nl ++ "  " ++ dq ++ "Pet" ++ dq ++ ": {" ++ nl
                      ++ "    " ++ dq ++ "description" ++ dq ++ ": "))
    by reflexivity.
  split; [reflexivity|]. split; [reflexivity|]. split; [exact E|].
  rewrite E. intros H. vm_compute in H. discriminate H.
Qed.

(** The same happens without any encoding failure when components.schemas
    is a non-zero number: the file is written, then [len(schema_data)]
    raises [TypeError]. *)
Example number_schemas_written_then_fails :
  exit_status (run (world_of None (Some "tok") (ok_200 (components_with (JInt 5)))) old_files)
    = 1%Z
  /\ schema_json
       (files (final (run (world_of None (Some "tok") (ok_200 (components_with (JInt 5))))
                        old_files)))
     = Some "5".
Proof. split; reflexivity. Qed.

(** ** Exit status *)

(** C9. For every world and every initial state of the files,
    [load_schema] returns a boolean (no exception leaves it, whichever step
    raised), the exit status is 0 when it returns [True] and 1 when it
    returns [False], no exception leaves [main], and the status is 0 exactly
    when every step succeeded. *)
Theorem every_failure_becomes_exit_status (w : World) (fs : Files) :
  (exists (success : bool) (s : Sys),
      load_schema w (say banner_lines (boot fs)) = (inr success, s)
      /\ exit_status (run w fs) = (if success then 0 else 1)%Z)
  /\ escaped (run w fs) = None
  /\ (exit_status (run w fs) = 0%Z <-> full_success w)
  /\ (exit_status (run w fs) = 1%Z <-> ~ full_success w).
Proof.
  split.
  { rewrite run_eq.
    destruct (load_schema_cases w (say banner_lines (boot fs))) as [[_ [s E]]|[_ [s E]]];
      rewrite E; eexists _, s; split; reflexivity. }
  destruct (run_cases w fs) as [(H & E & X)|(H & E & X)]; rewrite E, X.
  - split; [reflexivity|]. split; split; intros H'.
    + exact H.
    + reflexivity.
    + discriminate H'.
    + contradiction.
  - split; [reflexivity|]. split; split; intros H'.
    + discriminate H'.
    + contradiction.
    + exact H.
    + reflexivity.
Qed.

(** ** The base address *)

Lemma handler_eq (e : Exn) (s : Sys) :
  handler e s = (inr false, say (handler_lines e) s).
Proof.
  destruct e as [code reason|reason|tn msg];
    unfold handler, handler_lines, http_guidance, bind, print, ret.
  - destruct (code =? 401)%Z; [|destruct (code =? 403)%Z];
      rewrite ?print_all_say; unfold say; simpl; rewrite <- ?app_assoc; reflexivity.
  - rewrite print_all_say. unfold say. simpl. rewrite <- ?app_assoc. reflexivity.
  - reflexivity.
Qed.

Ltac trace_leaf :=
  rewrite ?handler_eq; unfold say, sent, with_files; cbn [stdout net_log files];
  eexists _, _, _; split;
  [ reflexivity
  | split;
    [ cbn [stdout]; rewrite <- ?app_assoc; reflexivity
    | intros; try discriminate; reflexivity ] ].

(** With a credential, [load_schema] prints the address first and hands one
    request to [urlopen] unless [Request] refuses the address. *)
Lemma load_schema_trace (w : World) (s : Sys) :
  str_truthy (directus_token w) = true ->
  exists (b : bool) (s' : Sys) (more : list string),
    load_schema w s = (inr b, s')
    /\ stdout s' = (stdout s ++ fetching_line (schema_url w) :: more)%list
    /\ (Request_init w (schema_url w) = None ->
        net_log s' = (net_log s ++ [(request_of w, 30%Z)])%list).
Proof.
  intros Ht. rewrite load_schema_try by assumption. rewrite try_body_eq.
  destruct (Request_init w (schema_url w)) eqn:Hr; [trace_leaf|].
  destruct (urlopen w (request_of w) 30) as [e|resp]; [trace_leaf|].
  destruct (negb (status resp =? 200)%Z); [trace_leaf|].
  destruct (body resp) as [e|doc]; [trace_leaf|].
  destruct (extract_schemas doc) as [e|v]; [trace_leaf|].
  destruct (negb (truthy v)); [trace_leaf|].
  rewrite save_steps_eq.
  destruct (mkdir_fault w); [trace_leaf|].
  destruct (open_fault w); [trace_leaf|].
  destruct (refused_chunk (iterencode 2 false v 0)); [trace_leaf|].
  destruct (py_len v); trace_leaf.
Qed.

Lemma console_say (f : string) (lines : list string) (log : list (Request * Z)) (fs : Files) :
  say closing_lines (say lines (mkSys (banner_lines ++ [f]) log fs))
  = mkSys (console (f :: lines)) log fs.
Proof.
  reflexivity.
Qed.

Lemma run_request_refused (w : World) (fs : Files) (e : Exn) :
  str_truthy (directus_token w) = true ->
  Request_init w (schema_url w) = Some e ->
  run w fs =
    mkOutcome 1 None
      (mkSys (console (fetching_line (schema_url w) :: handler_lines e)) [] fs).
Proof.
  intros Ht Hr. rewrite run_try, try_body_eq, Hr, handler_eq by assumption.
  change (say (banner_lines ++ [fetching_line (schema_url w)]) (boot fs))
    with (mkSys (banner_lines ++ [fetching_line (schema_url w)]) [] fs).
  now rewrite console_say.
Qed.

(** C10. The default base address is used when DIRECTUS_URL is unset.  When
    it is set to the empty string, the base address is the empty string and
    the address fetched is "/server/specs/oas": that is the address printed
    and the address given to [Request]; the request handed to [urlopen] has
    it when [Request] accepts it, and when [Request] raises, the exception
    is reported and nothing is sent.  An empty DIRECTUS_TOKEN, in contrast,
    gives the same result as an absent one. *)
Theorem empty_base_address_is_used (w : World) (fs : Files) :
  environ w "DIRECTUS_URL" = Some "" ->
  str_truthy (directus_token w) = true ->
  directus_url w = ""
  /\ schema_url w = "/server/specs/oas"
  /\ (exists more,
        stdout (final (run w fs))
        = (banner_lines ++ "🔍 Fetching schema from: /server/specs/oas" :: more)%list)
  /\ (Request_init w "/server/specs/oas" = None ->
      net_log (final (run w fs))
      = [(mkRequest "/server/specs/oas"
            [("Authorization", "Bearer " ++ fmt (directus_token w));
             ("Accept", "application/json")], 30%Z)])
  /\ (forall e, Request_init w "/server/specs/oas" = Some e ->
                net_log (final (run w fs)) = []
                /\ stdout (final (run w fs))
                   = console ("🔍 Fetching schema from: /server/specs/oas" :: handler_lines e))
  /\ (forall w', environ w' "DIRECTUS_URL" = None ->
                 schema_url w' = "https://directus.bounteer.com/server/specs/oas")
  /\ (forall w' w'' s,
         environ w' "DIRECTUS_TOKEN" = Some "" -> environ w'' "DIRECTUS_TOKEN" = None ->
         load_schema w' s = load_schema w'' s).
Proof.
  intros Hurl Ht.
  assert (Hd : directus_url w = "")
    by (unfold directus_url, getenv_default; now rewrite Hurl).
  assert (Hs : schema_url w = "/server/specs/oas")
    by (unfold schema_url; now rewrite Hd).
  assert (Hq : request_of w
               = mkRequest "/server/specs/oas"
                   [("Authorization", "Bearer " ++ fmt (directus_token w));
                    ("Accept", "application/json")])
    by (unfold request_of, add_header; now rewrite Hs).
  destruct (load_schema_trace w (say banner_lines (boot fs)) Ht)
    as (b & s' & more & E & Hout & Hnet).
  split; [exact Hd|]. split; [exact Hs|]. split; [|split; [|split; [|split]]].
  - exists (more ++ closing_lines)%list. rewrite run_eq, E.
    cbn [final]. unfold say at 1. cbn [stdout]. rewrite Hout, Hs.
    cbn [say boot stdout]. rewrite <- app_assoc. reflexivity.
  - intros Hreq. rewrite run_eq, E. cbn [final]. unfold say at 1. cbn [net_log].
    rewrite Hnet by (rewrite Hs; exact Hreq). rewrite Hq. reflexivity.
  - intros e Hreq. rewrite <- Hs in Hreq.
    rewrite (run_request_refused w fs e Ht Hreq), Hs. split; reflexivity.
  - intros w' H. unfold schema_url, directus_url, getenv_default. now rewrite H.
  - intros w' w'' s H' H''.
    rewrite !load_schema_missing; try reflexivity.
    + unfold directus_token, getenv. now rewrite H''.
    + unfold directus_token, getenv. now rewrite H'.
Qed.

Lemma empty_base_address_witness :
  directus_url world_empty_url = ""
  /\ schema_url world_empty_url = "/server/specs/oas"
  /\ (exists more,
        stdout (final (run world_empty_url old_files))
        = (banner_lines ++ "🔍 Fetching schema from: /server/specs/oas" :: more)%list)
  /\ (Request_init world_empty_url "/server/specs/oas" = None ->
      net_log (final (run world_empty_url old_files))
      = [(mkRequest "/server/specs/oas"
            [("Authorization", "Bearer " ++ fmt (directus_token world_empty_url));
             ("Accept", "application/json")], 30%Z)])
  /\ (forall e, Request_init world_empty_url "/server/specs/oas" = Some e ->
                net_log (final (run world_empty_url old_files)) = []
                /\ stdout (final (run world_empty_url old_files))
                   = console ("🔍 Fetching schema from: /server/specs/oas" :: handler_lines e))
  /\ (forall w', environ w' "DIRECTUS_URL" = None ->
                 schema_url w' = "https://directus.bounteer.com/server/specs/oas")
  /\ (forall w' w'' s,
         environ w' "DIRECTUS_TOKEN" = Some "" -> environ w'' "DIRECTUS_TOKEN" = None ->
         load_schema w' s = load_schema w'' s).
Proof.
  apply (empty_base_address_is_used world_empty_url old_files); reflexivity.
Defined.

(** With urllib's check on the address, the run on an empty DIRECTUS_URL
    stops at [Request]. *)
Example empty_base_address_run :
  run world_empty_url old_files
  = mkOutcome 1 None
      (mkSys (console ["🔍 Fetching schema from: /server/specs/oas";
                       "❌ Unexpected Error: ValueError: unknown url type: '/server/specs/oas'"])
         [] old_files).
Proof. reflexivity. Qed.

(** * Further properties of the script *)

(** ** Helpers *)

Lemma run_body_raises (w : World) (fs : Files) (resp : Response) (e : Exn) :
  str_truthy (directus_token w) = true ->
  Request_init w (schema_url w) = None ->
  urlopen w (request_of w) 30 = inr resp ->
  status resp = 200%Z ->
  body resp = inl e ->
  run w fs =
    mkOutcome 1 None
      (mkSys (console (fetching_line (schema_url w) :: handler_lines e))
         [(request_of w, 30%Z)] fs).
Proof.
  intros Ht Hr Hu Hs Hb. apply Z.eqb_eq in Hs.
  rewrite run_try, try_body_eq, Hr, Hu, Hs, Hb by assumption.
  cbn [negb]. cbv beta iota. rewrite handler_eq. reflexivity.
Qed.

(** The run from the emptiness test on, when the extracted value is truthy. *)
Lemma run_save_steps (w : World) (fs : Files) (resp : Response) (doc v : json) :
  str_truthy (directus_token w) = true ->
  Request_init w (schema_url w) = None ->
  urlopen w (request_of w) 30 = inr resp ->
  status resp = 200%Z ->
  body resp = inr doc ->
  extract_schemas doc = inr v ->
  truthy v = true ->
  run w fs =
    match save_steps w v
            (mkSys (banner_lines ++ [fetching_line (schema_url w)])
               [(request_of w, 30%Z)] fs) with
    | (inr b, s) => mkOutcome (if b then 0 else 1)%Z None (say closing_lines s)
    | (inl e, s) => mkOutcome 1 None (say closing_lines (say (handler_lines e) s))
    end.
Proof.
  intros Ht Hr Hu Hs Hb He Hv. apply Z.eqb_eq in Hs.
  rewrite run_try, try_body_eq, Hr, Hu, Hs, Hb, He, Hv by assumption.
  cbn [negb].
  change (sent w (say (banner_lines ++ [fetching_line (schema_url w)]) (boot fs)))
    with (mkSys (banner_lines ++ [fetching_line (schema_url w)])
            [(request_of w, 30%Z)] fs).
  destruct (save_steps w v _) as [[e|b] s]; [|reflexivity].
  now rewrite handler_eq.
Qed.

Lemma sized_is_truthy (v : json) (n : nat) : py_len v = inr (S n) -> truthy v = true.
Proof.
  destruct v as [ | b | z | t | s | l | d]; simpl; intros H; try discriminate;
    injection H as H; now rewrite H.
Qed.

Lemma unsized_has_no_surrogates (v : json) (e : Exn) :
  py_len v = inl e ->
  no_surrogates v = true
  /\ e = OtherError "TypeError" ("object of type '" ++ type_name v ++ "' has no len()").
Proof.
  destruct v as [ | b | z | t | s | l | d]; simpl; intros H; try discriminate;
    injection H as <-; split; reflexivity.
Qed.

Ltac walk w :=
  destruct (Request_init w (schema_url w)) eqn:Hr;
  [|destruct (urlopen w (request_of w) 30) as [e|resp] eqn:Hu;
    [|destruct (status resp =? 200)%Z eqn:Hs; cbn [negb];
      [destruct (body resp) as [e|doc] eqn:Hb;
       [|destruct (extract_schemas doc) as [e|v] eqn:He;
         [|destruct (truthy v) eqn:Hv; cbn [negb];
           [rewrite ?save_steps_eq;
            destruct (mkdir_fault w) eqn:Hm;
            [|destruct (open_fault w) eqn:Ho;
              [|destruct (refused_chunk (iterencode 2 false v 0)) eqn:Hc;
                [|destruct (py_len v) as [e|n] eqn:Hl]]]|]]]|]]].

(** ** Requests *)


(** ** Console *)

(** X2. Everything a run prints is framed: the four banner lines first, the
    blank line and the rule last.  Between them come the 18 lines of the
    credential guidance when the credential is missing, and otherwise the
    "Fetching schema from" line followed by the rest. *)
Theorem output_is_framed (w : World) (fs : Files) :
  exists lines,
    stdout (final (run w fs)) = (banner_lines ++ lines ++ closing_lines)%list
    /\ (str_truthy (directus_token w) = false -> lines = missing_token_lines)
    /\ (str_truthy (directus_token w) = true ->
        exists more, lines = fetching_line (schema_url w) :: more).
Proof.
  destruct (str_truthy (directus_token w)) eqn:Ht.
  - destruct (load_schema_trace w (say banner_lines (boot fs)) Ht)
      as (b & s' & more & E & Hout & _).
    exists (fetching_line (schema_url w) :: more). split; [|split].
    + rewrite run_eq, E. cbn [final]. unfold say at 1. cbn [stdout].
      rewrite Hout. cbn [say boot stdout]. rewrite <- app_assoc. reflexivity.
    + discriminate.
    + intros _. now exists more.
  - exists missing_token_lines. split; [|split].
    + now rewrite (run_missing w fs Ht).
    + reflexivity.
    + discriminate.
Qed.

(** ** Unexpected errors *)

(** X3. When reading, decoding or parsing the body of a 200 response raises
    an exception other than [HTTPError] and [URLError] (a body that is not
    JSON, for one), the run prints one line, "Unexpected Error: <class>:
    <message>", leaves the files as they were, and exits with status 1. *)
Theorem unreadable_body_reported (w : World) (fs : Files) (resp : Response)
        (class message : string) :
  str_truthy (directus_token w) = true ->
  Request_init w (schema_url w) = None ->
  urlopen w (request_of w) 30 = inr resp ->
  status resp = 200%Z ->
  body resp = inl (OtherError class message) ->
  stdout (final (run w fs))
    = console [fetching_line (schema_url w);
               "❌ Unexpected Error: " ++ class ++ ": " ++ message]
  /\ files (final (run w fs)) = fs
  /\ exit_status (run w fs) = 1%Z.
Proof.
  intros Ht Hr Hu Hs Hb.
  rewrite (run_body_raises w fs resp _ Ht Hr Hu Hs Hb). repeat split.
Qed.

Lemma unreadable_body_witness :
  stdout (final (run world_bad_json old_files))
    = console [fetching_line (schema_url world_bad_json);
               "❌ Unexpected Error: " ++ "JSONDecodeError" ++ ": "
                 ++ "Expecting value: line 1 column 1 (char 0)"]
  /\ files (final (run world_bad_json old_files)) = old_files
  /\ exit_status (run world_bad_json old_files) = 1%Z.
Proof.
  apply (unreadable_body_reported world_bad_json old_files
           (mkResponse 200
              (inl (OtherError "JSONDecodeError" "Expecting value: line 1 column 1 (char 0)")))
           "JSONDecodeError" "Expecting value: line 1 column 1 (char 0)"); reflexivity.
Defined.

(** ** Extraction *)

(** X4. The extraction at line 71 returns the value found at
    components.schemas as it is, of whatever type, and the empty mapping
    when "components" is absent from the document or "schemas" is absent
    from the object at "components".  It raises in two cases only, the
    document not being an object and the value at "components" not being an
    object, and what it raises is the [AttributeError] of the missing [get]
    on a value of that type. *)
Theorem extract_schemas_outcomes (doc : json) :
  (forall v,
      extract_schemas doc = inr v <->
      exists top,
        doc = JDict top
        /\ ((dict_lookup (lit "components") top = None /\ v = JDict [])
            \/ (exists comps,
                   dict_lookup (lit "components") top = Some (JDict comps)
                   /\ ((dict_lookup (lit "schemas") comps = None /\ v = JDict [])
                       \/ dict_lookup (lit "schemas") comps = Some v))))
  /\ (forall e,
         extract_schemas doc = inl e <->
         exists o,
           (forall d, o <> JDict d)
           /\ (o = doc
               \/ exists top, doc = JDict top /\ dict_lookup (lit "components") top = Some o)
           /\ e = OtherError "AttributeError"
                    ("'" ++ type_name o ++ "' object has no attribute 'get'")).
Proof.
  split.
  - intros v. split.
    + unfold extract_schemas, py_get.
      destruct doc as [ | b | z | t | s | l | top]; try discriminate.
      intros H. exists top. split; [reflexivity|].
      destruct (dict_lookup (lit "components") top) as [c|] eqn:Ec.
      * right. destruct c as [ | b | z | t | s | l | comps]; try discriminate.
        exists comps. split; [reflexivity|].
        destruct (dict_lookup (lit "schemas") comps) as [x|] eqn:Es;
          injection H as <-; [right | left]; auto.
      * left. injection H as <-. auto.
    + intros (top & -> & [[Hc ->]|(comps & Hc & [[Hs ->]|Hs])]);
        unfold extract_schemas, py_get; rewrite Hc; try rewrite Hs; reflexivity.
  - intros e. split.
    + unfold extract_schemas, py_get.
      destruct doc as [ | b | z | t | s | l | top];
        try (intros H; injection H as <-; eexists;
             split; [|split; [left; reflexivity | reflexivity]];
             intros d; discriminate).
      destruct (dict_lookup (lit "components") top) as [c|] eqn:Ec; [|discriminate].
      destruct c as [ | b | z | t | s | l | comps];
        try (intros H; injection H as <-; eexists;
             split; [|split; [right; exists top; split; [reflexivity | exact Ec]
                             | reflexivity]];
             intros d; discriminate).
      discriminate.
    + intros (o & Hno & [->|(top & -> & Hc)] & ->).
      * unfold extract_schemas, py_get.
        destruct doc as [ | b | z | t | s | l | top]; try reflexivity.
        exfalso. now apply (Hno top).
      * unfold extract_schemas, py_get. rewrite Hc.
        destruct o as [ | b | z | t | s | l | comps]; try reflexivity.
        exfalso. now apply (Hno comps).
Qed.

(** ** The writer *)

(** X5. The script does not check that the value at components.schemas is
    an object: any non-empty value that has a length (an array or a string
    as well as an object) whose strings are encodable is written to the
    file in full, counted with [len], and the run exits with status 0. *)
Theorem sized_value_is_saved (w : World) (fs : Files) (resp : Response)
        (doc v : json) (n : nat) :
  str_truthy (directus_token w) = true ->
  Request_init w (schema_url w) = None ->
  urlopen w (request_of w) 30 = inr resp ->
  status resp = 200%Z ->
  body resp = inr doc ->
  extract_schemas doc = inr v ->
  py_len v = inr (S n) ->
  no_surrogates v = true ->
  mkdir_fault w = None ->
  open_fault w = None ->
  files (final (run w fs)) = mkFiles true (Some (utf8_bytes (dumps 2 false v)))
  /\ stdout (final (run w fs))
     = console [fetching_line (schema_url w);
                "✅ Schema successfully saved to: " ++ schema_file_name w;
                "📊 Schema contains " ++ str_of_nat (S n) ++ " schemas"]
  /\ exit_status (run w fs) = 0%Z.
Proof.
  intros Ht Hr Hu Hs Hb He Hl Hn Hm Ho.
  rewrite (run_saved w fs resp doc v (S n) Ht Hr Hu Hs Hb He
             (sized_is_truthy v n Hl) Hm Ho (iterencode_encodable v Hn 0%nat) Hl).
  repeat split.
Qed.

Lemma sized_value_witness :
  files (final (run world_array old_files))
    = mkFiles true
        (Some (utf8_bytes (dumps 2 false (JList [JStr (lit "A"); JInt 1]))))
  /\ stdout (final (run world_array old_files))
     = console [fetching_line (schema_url world_array);
                "✅ Schema successfully saved to: " ++ schema_file_name world_array;
                "📊 Schema contains " ++ str_of_nat 2 ++ " schemas"]
  /\ exit_status (run world_array old_files) = 0%Z.
Proof.
  apply (sized_value_is_saved world_array old_files
           (mkResponse 200 (inr (components_with (JList [JStr (lit "A"); JInt 1]))))
           (components_with (JList [JStr (lit "A"); JInt 1]))
           (JList [JStr (lit "A"); JInt 1]) 1); reflexivity.
Defined.

(** X6. When the value at components.schemas is truthy but has no length (a
    non-zero number or [true]), the file is written in full and the
    confirmation line printed before [len] raises [TypeError]: the run
    reports an unexpected error and exits with status 1, with the new
    content on disk. *)
Theorem unsized_value_written_then_fails (w : World) (fs : Files) (resp : Response)
        (doc v : json) (e : Exn) :
  str_truthy (directus_token w) = true ->
  Request_init w (schema_url w) = None ->
  urlopen w (request_of w) 30 = inr resp ->
  status resp = 200%Z ->
  body resp = inr doc ->
  extract_schemas doc = inr v ->
  truthy v = true ->
  py_len v = inl e ->
  mkdir_fault w = None ->
  open_fault w = None ->
  files (final (run w fs)) = mkFiles true (Some (utf8_bytes (dumps 2 false v)))
  /\ stdout (final (run w fs))
     = console [fetching_line (schema_url w);
                "✅ Schema successfully saved to: " ++ schema_file_name w;
                "❌ Unexpected Error: TypeError: object of type '" ++ type_name v
                  ++ "' has no len()"]
  /\ exit_status (run w fs) = 1%Z.
Proof.
  intros Ht Hr Hu Hs Hb He Hv Hl Hm Ho.
  destruct (unsized_has_no_surrogates v e Hl) as [Hn ->].
  assert (Hc : forallb encodable (iterencode 2 false v 0) = true)
    by now apply iterencode_encodable.
  rewrite (run_save_steps w fs resp doc v Ht Hr Hu Hs Hb He Hv).
  rewrite save_steps_eq, Hm, Ho, (proj2 (refused_chunk_none _) Hc), Hl.
  unfold dumped_files. rewrite (written_chunks_all _ Hc).
  repeat split.
Qed.

Lemma unsized_value_witness :
  files (final (run world_number old_files))
    = mkFiles true (Some (utf8_bytes (dumps 2 false (JInt 5))))
  /\ stdout (final (run world_number old_files))
     = console [fetching_line (schema_url world_number);
                "✅ Schema successfully saved to: " ++ schema_file_name world_number;
                "❌ Unexpected Error: TypeError: object of type '" ++ type_name (JInt 5)
                  ++ "' has no len()"]
  /\ exit_status (run world_number old_files) = 1%Z.
Proof.
  apply (unsized_value_written_then_fails world_number old_files
           (mkResponse 200 (inr (components_with (JInt 5))))
           (components_with (JInt 5)) (JInt 5)
           (OtherError "TypeError" "object of type 'int' has no len()")); reflexivity.
Defined.

(** X7. When a chunk of the serialisation cannot be encoded as UTF-8, the
    file holds the bytes of the chunks written before it and nothing of the
    previous content, the confirmation lines are not printed, the run
    reports the [UnicodeEncodeError] and exits with status 1. *)
Theorem refused_chunk_leaves_partial_file (w : World) (fs : Files) (resp : Response)
        (doc v : json) (c : pystr) :
  str_truthy (directus_token w) = true ->
  Request_init w (schema_url w) = None ->
  urlopen w (request_of w) 30 = inr resp ->
  status resp = 200%Z ->
  body resp = inr doc ->
  extract_schemas doc = inr v ->
  truthy v = true ->
  mkdir_fault w = None ->
  open_fault w = None ->
  refused_chunk (iterencode 2 false v 0) = Some c ->
  files (final (run w fs))
    = mkFiles true
        (Some (utf8_bytes (List.concat (written_chunks (iterencode 2 false v 0)))))
  /\ stdout (final (run w fs))
     = console (fetching_line (schema_url w) :: handler_lines (UnicodeEncodeError c))
  /\ exit_status (run w fs) = 1%Z.
Proof.
  intros Ht Hr Hu Hs Hb He Hv Hm Ho Hc.
  rewrite (run_save_steps w fs resp doc v Ht Hr Hu Hs Hb He Hv).
  rewrite save_steps_eq, Hm, Ho, Hc.
  repeat split.
Qed.

Lemma refused_chunk_witness :
  files (final (run world_surrogate old_files))
    = mkFiles true
        (Some (utf8_bytes
                 (List.concat (written_chunks (iterencode 2 false schemas_surrogate 0)))))
  /\ stdout (final (run world_surrogate old_files))
     = console (fetching_line (schema_url world_surrogate)
                  :: handler_lines (UnicodeEncodeError [34; 0xD800; 34]%N))
  /\ exit_status (run world_surrogate old_files) = 1%Z.
Proof.
  apply (refused_chunk_leaves_partial_file world_surrogate old_files
           (mkResponse 200 (inr (components_with schemas_surrogate)))
           (components_with schemas_surrogate) schemas_surrogate
           [34; 0xD800; 34]%N); reflexivity.
Defined.

(** X8. When the reference directory cannot be created, nothing on disk
    changes (neither the directory nor the file), the error is reported by
    the handler of its class, and the run exits with status 1. *)
Theorem mkdir_failure_changes_nothing (w : World) (fs : Files) (resp : Response)
        (doc v : json) (e : Exn) :
  str_truthy (directus_token w) = true ->
  Request_init w (schema_url w) = None ->
  urlopen w (request_of w) 30 = inr resp ->
  status resp = 200%Z ->
  body resp = inr doc ->
  extract_schemas doc = inr v ->
  truthy v = true ->
  mkdir_fault w = Some e ->
  files (final (run w fs)) = fs
  /\ stdout (final (run w fs)) = console (fetching_line (schema_url w) :: handler_lines e)
  /\ exit_status (run w fs) = 1%Z.
Proof.
  intros Ht Hr Hu Hs Hb He Hv Hm.
  rewrite (run_save_steps w fs resp doc v Ht Hr Hu Hs Hb He Hv).
  rewrite save_steps_eq, Hm.
  repeat split.
Qed.

Lemma mkdir_failure_witness :
  files (final (run world_mkdir_denied no_files)) = no_files
  /\ stdout (final (run world_mkdir_denied no_files))
     = console (fetching_line (schema_url world_mkdir_denied)
                  :: handler_lines (permission_denied "/repo/reference"))
  /\ exit_status (run world_mkdir_denied no_files) = 1%Z.
Proof.
  apply (mkdir_failure_changes_nothing world_mkdir_denied no_files
           (mkResponse 200 (inr (components_with schemas_A)))
           (components_with schemas_A) schemas_A
           (permission_denied "/repo/reference")); reflexivity.
Defined.

(** X9. When the directory is created but the file cannot be opened, the
    directory stays (it is not removed again), the content of the file, or
    its absence, is as before, the error is reported, and the run exits
    with status 1. *)
Theorem open_failure_keeps_directory (w : World) (fs : Files) (resp : Response)
        (doc v : json) (e : Exn) :
  str_truthy (directus_token w) = true ->
  Request_init w (schema_url w) = None ->
  urlopen w (request_of w) 30 = inr resp ->
  status resp = 200%Z ->
  body resp = inr doc ->
  extract_schemas doc = inr v ->
  truthy v = true ->
  mkdir_fault w = None ->
  open_fault w = Some e ->
  files (final (run w fs)) = mkFiles true (schema_json fs)
  /\ stdout (final (run w fs)) = console (fetching_line (schema_url w) :: handler_lines e)
  /\ exit_status (run w fs) = 1%Z.
Proof.
  intros Ht Hr Hu Hs Hb He Hv Hm Ho.
  rewrite (run_save_steps w fs resp doc v Ht Hr Hu Hs Hb He Hv).
  rewrite save_steps_eq, Hm, Ho.
  repeat split.
Qed.

Lemma open_failure_witness :
  files (final (run world_open_denied no_files)) = mkFiles true (schema_json no_files)
  /\ stdout (final (run world_open_denied no_files))
     = console (fetching_line (schema_url world_open_denied)
                  :: handler_lines (permission_denied "/repo/reference/schema.json"))
  /\ exit_status (run world_open_denied no_files) = 1%Z.
Proof.
  apply (open_failure_keeps_directory world_open_denied no_files
           (mkResponse 200 (inr (components_with schemas_A)))
           (components_with schemas_A) schemas_A
           (permission_denied "/repo/reference/schema.json")); reflexivity.
Defined.

(** ** What a run leaves behind *)

Ltac use_equation :=
  match goal with
  | H : Request_init _ _ = _ |- _ => rewrite H; clear H
  | H : urlopen _ _ _ = _ |- _ => rewrite H; clear H
  | H : (status _ =? _)%Z = _ |- _ => rewrite H; clear H
  | H : body _ = _ |- _ => rewrite H; clear H
  | H : extract_schemas _ = _ |- _ => rewrite H; clear H
  | H : truthy _ = _ |- _ => rewrite H; clear H
  | H : mkdir_fault _ = _ |- _ => rewrite H; clear H
  | H : open_fault _ = _ |- _ => rewrite H; clear H
  | H : refused_chunk _ = _ |- _ => rewrite H; clear H
  | H : py_len _ = _ |- _ => rewrite H; clear H
  end.

Ltac settle :=
  intros fs;
  try (rewrite run_missing by assumption; reflexivity);
  rewrite run_try by assumption; rewrite try_body_eq;
  repeat first [ use_equation
               | progress cbn [negb]
               | progress cbv beta iota
               | rewrite save_steps_eq ];
  rewrite ?handler_eq; reflexivity.

Ltac shaped T code :=
  exists T, code; split; [settle | split; [settle | intros fs; reflexivity]].

(** The effect of a run on the files and its exit status are functions of
    the world, and the effect on the files is idempotent. *)
Lemma run_shape (w : World) :
  exists (T : Files -> Files) (code : Z),
    (forall fs, files (final (run w fs)) = T fs)
    /\ (forall fs, exit_status (run w fs) = code)
    /\ (forall fs, T (T fs) = T fs).
Proof.
  destruct (str_truthy (directus_token w)) eqn:Ht;
    [|shaped (fun fs : Files => fs) 1%Z].
  walk w.
  - shaped (fun fs : Files => fs) 1%Z.
  - shaped (fun fs : Files => fs) 1%Z.
  - shaped (fun fs : Files => fs) 1%Z.
  - shaped (fun fs : Files => fs) 1%Z.
  - shaped (fun fs : Files => fs) 1%Z.
  - shaped (fun fs : Files => mkFiles true (schema_json fs)) 1%Z.
  - shaped (fun _ : Files => dumped_files v) 1%Z.
  - shaped (fun _ : Files => dumped_files v) 1%Z.
  - shaped (fun _ : Files => dumped_files v) 0%Z.
  - shaped (fun fs : Files => fs) 1%Z.
  - shaped (fun fs : Files => fs) 1%Z.
Qed.

(** X10. Running the script a second time against the same world, on the
    files the first run left, leaves the files exactly as the first run
    left them and exits with the same status: nothing is appended or merged,
    and a partial file from a failed write is reproduced, not extended. *)
Theorem rerun_changes_nothing (w : World) (fs : Files) :
  files (final (run w (files (final (run w fs))))) = files (final (run w fs))
  /\ exit_status (run w (files (final (run w fs)))) = exit_status (run w fs).
Proof.
  destruct (run_shape w) as (T & code & HT & Hcode & Hidem).
  split.
  - now rewrite !HT, Hidem.
  - now rewrite !Hcode.
Qed.

Lemma written_chunks_prefix (chunks : list pystr) :
  exists rest,
    chunks = (written_chunks chunks ++ rest)%list
    /\ forallb encodable (written_chunks chunks) = true.
Proof.
  induction chunks as [|c cs (rest & E & H)]; [exists []; split; reflexivity|].
  simpl. destruct (encodable c) eqn:Ec.
  - exists rest. simpl. rewrite Ec, H. split; [now rewrite <- E | reflexivity].
  - exists (c :: cs). split; reflexivity.
Qed.

(** X11. Whatever happens, the file ends up holding either what it held
    before the run, or the UTF-8 bytes of an initial run of the chunks of
    the serialisation (2-space indent, non-ASCII kept) of the non-empty
    value extracted from a 200 response: the script never writes anything
    else to reference/schema.json. *)
Theorem file_holds_only_the_schemas (w : World) (fs : Files) :
  schema_json (files (final (run w fs))) = schema_json fs
  \/ exists resp doc v written rest,
       urlopen w (request_of w) 30 = inr resp
       /\ status resp = 200%Z
       /\ body resp = inr doc
       /\ extract_schemas doc = inr v
       /\ truthy v = true
       /\ iterencode 2 false v 0 = (written ++ rest)%list
       /\ forallb encodable written = true
       /\ schema_json (files (final (run w fs)))
          = Some (utf8_bytes (List.concat written)).
Proof.
  destruct (load_schema_file w (say banner_lines (boot fs)))
    as [(Ht & Hr & resp & doc & v & Hu & Hs & Hb & He & Hv & Hm & Ho)|(s' & E & Hf)].
  2:{ left. rewrite run_eq, E. exact Hf. }
  right.
  destruct (written_chunks_prefix (iterencode 2 false v 0)) as (rest & Hsplit & Henc).
  exists resp, doc, v, (written_chunks (iterencode 2 false v 0)), rest.
  repeat (split; [assumption|]).
  rewrite (run_save_steps w fs resp doc v Ht Hr Hu Hs Hb He Hv).
  rewrite save_steps_eq, Hm, Ho.
  destruct (refused_chunk (iterencode 2 false v 0)); [reflexivity|].
  destruct (py_len v); reflexivity.
Qed.

Lemma truthy_sized_positive (v : json) (n : nat) :
  truthy v = true -> py_len v = inr n -> (0 < n)%nat.
Proof.
  destruct v as [ | b | z | t | s | l | d]; simpl; intros Hv H; try discriminate;
    injection H as <-;
    match goal with
    | |- (0 < List.length ?x)%nat => destruct x; [discriminate Hv | simpl; lia]
    end.
Qed.

(** X12. An exit status of 0 guarantees the output: the response had status
    200, the value extracted from its body is non-empty, the directory
    exists, the file holds the complete serialisation of that value and
    nothing else, and the two confirmation lines were printed with the
    number of its entries. *)
Theorem exit_0_means_file_complete (w : World) (fs : Files) :
  exit_status (run w fs) = 0%Z ->
  exists resp doc v n,
    urlopen w (request_of w) 30 = inr resp
    /\ status resp = 200%Z
    /\ body resp = inr doc
    /\ extract_schemas doc = inr v
    /\ py_len v = inr n
    /\ (0 < n)%nat
    /\ files (final (run w fs)) = mkFiles true (Some (utf8_bytes (dumps 2 false v)))
    /\ stdout (final (run w fs))
       = console [fetching_line (schema_url w);
                  "✅ Schema successfully saved to: " ++ schema_file_name w;
                  "📊 Schema contains " ++ str_of_nat n ++ " schemas"].
Proof.
  intros H0. apply run_success_iff in H0.
  destruct H0 as (Ht & Hr & resp & doc & v & n & Hu & Hs & Hb & He & Hv & Hm & Ho & Hc & Hl).
  exists resp, doc, v, n.
  repeat (split; [assumption|]).
  split; [exact (truthy_sized_positive v n Hv Hl)|].
  rewrite (run_saved w fs resp doc v n Ht Hr Hu Hs Hb He Hv Hm Ho Hc Hl).
  split; reflexivity.
Qed.

Lemma exit_0_witness :
  exists resp doc v n,
    urlopen world_A (request_of world_A) 30 = inr resp
    /\ status resp = 200%Z
    /\ body resp = inr doc
    /\ extract_schemas doc = inr v
    /\ py_len v = inr n
    /\ (0 < n)%nat
    /\ files (final (run world_A no_files))
       = mkFiles true (Some (utf8_bytes (dumps 2 false v)))
    /\ stdout (final (run world_A no_files))
       = console [fetching_line (schema_url world_A);
                  "✅ Schema successfully saved to: " ++ schema_file_name world_A;
                  "📊 Schema contains " ++ str_of_nat n ++ " schemas"].
Proof.
  apply (exit_0_means_file_complete world_A no_files). reflexivity.
Defined.

(** ** Strings in the file *)

Lemma plain_char_not_escaped (c : N) : plain_char c = true -> escape_short c = None.
Proof.
  unfold plain_char, escape_short. intros H.
  apply andb_prop in H. destruct H as [H H92].
  apply andb_prop in H. destruct H as [H20 H34].
  apply N.leb_le in H20.
  apply negb_true_iff in H92. apply negb_true_iff in H34.
  rewrite H92, H34.
  repeat match goal with
         | |- context [(c =? ?k)%N] =>
             destruct (N.eqb_spec c k); [subst c; exfalso; lia|]
         end.
  destruct (c <? 32)%N eqn:E; [|reflexivity].
  apply N.ltb_lt in E. lia.
Qed.

(** X13. With [ensure_ascii=False], as the script calls [json.dump], a
    string made of characters other than the quote, the backslash and the
    control characters below U+0020 is written between two quotes exactly
    as it is: non-ASCII characters are not turned into [\u] escapes. *)
Theorem plain_string_written_verbatim (s : pystr) :
  forallb plain_char s = true ->
  iterencode 2 false (JStr s) 0 = [([34%N] ++ s ++ [34%N])%list]
  /\ dumps 2 false (JStr s) = ([34%N] ++ s ++ [34%N])%list.
Proof.
  intros H.
  assert (E : flat_map escape_char s = s).
  { induction s as [|c s IH]; [reflexivity|].
    simpl in H. apply andb_prop in H. destruct H as [Hc Hs].
    simpl. unfold escape_char at 1. rewrite (plain_char_not_escaped c Hc).
    simpl. now rewrite (IH Hs). }
  unfold dumps. cbn [iterencode scalar_text List.concat]. unfold encoder.
  rewrite E, app_nil_r. split; reflexivity.
Qed.

Lemma plain_string_witness :
  iterencode 2 false (JStr [0x43; 0x61; 0x66; 0xE9; 0x20; 0x2615]%N) 0
    = [([34%N] ++ [0x43; 0x61; 0x66; 0xE9; 0x20; 0x2615]%N ++ [34%N])%list]
  /\ dumps 2 false (JStr [0x43; 0x61; 0x66; 0xE9; 0x20; 0x2615]%N)
     = ([34%N] ++ [0x43; 0x61; 0x66; 0xE9; 0x20; 0x2615]%N ++ [34%N])%list.
Proof.
  apply (plain_string_written_verbatim [0x43; 0x61; 0x66; 0xE9; 0x20; 0x2615]%N).
  reflexivity.
Defined.

(** ** The credential *)


